(** * Nova model serving: feature alignment and prediction dispatch

    A shallow embedding of the two serving implementations of the repository,

      - [src/model/serve.py]            (module [Serve]),
      - [src/model-bot-backup/serve.py] (module [BotBackup]),

    and of the categorical encoding step of [src/model/Train-And-Package.py],
    followed by the properties of the alignment / dispatch / normalisation
    pipeline.

    Conventions of the embedding.
      - A Python [float] (and a NumPy [float64]) is an IEEE-754 binary64
        number, [spec_float] with precision 53 and maximal exponent 1024.
      - A Python [dict] is an association list in insertion order; its keys
        are pairwise distinct, which theorems assume as [NoDup] where it
        matters.  A Python [set] is a [gset].
      - A raised exception is the [Raise] case of [result]; code that also
        logs or counts runs in the monad [M], in which the state survives
        a raised exception, as it does in Python.
      - The trained model, [xgb.DMatrix], the fitted scaler and the rendering
        of a float as text are external: they are section variables. *)

From Stdlib Require Import ZArith String List Permutation Sorted.
From Stdlib Require OrderedTypeEx.
From Stdlib Require Import Floats.SpecFloat.
From stdpp Require Import base gmap sets list strings pretty.

Open Scope Z_scope.
Open Scope string_scope.

(** ** Python floats *)

Module PyFloat.

Definition prec : Z := 53.
Definition emax : Z := 1024.

Definition float : Type := spec_float.

Definition of_Z (n : Z) : float := binary_normalize prec emax n 0 false.

Definition sub : float → float → float := SFsub prec emax.
Definition mul : float → float → float := SFmul prec emax.
Definition div : float → float → float := SFdiv prec emax.
Definition abs : float → float := SFabs.

(** [x > y] and [x <= y]; both are [False] when an operand is NaN. *)
Definition gt (x y : float) : bool := SFltb y x.
Definition le (x y : float) : bool := SFleb x y.

Definition is_nan (x : float) : bool :=
  match x with S754_nan => true | _ => false end.

(** The literals of the source. *)
Definition zero : float := S754_zero false.
Definition half : float := div (of_Z 1) (of_Z 2).
Definition one : float := of_Z 1.
Definition two : float := of_Z 2.

(** [decimal n d] is the float a decimal literal [n/d] denotes, as long as
    [n] and [d] are below 2^53: the correctly rounded quotient. *)
Definition decimal (n d : Z) : float := div (of_Z n) (of_Z d).

End PyFloat.

Import PyFloat.

(** ** Scalars, exceptions, results *)

(** A feature value: [Union[float, int, str]] of the request model, or
    [None]. *)
Inductive value :=
| VInt (n : Z)
| VFloat (x : float)
| VStr (s : string)
| VNone.

(** A feature record. *)
Definition dict : Type := list (string * value).

Definition keys (d : dict) : list string := d.*1.

Fixpoint assoc {A : Type} (k : string) (l : list (string * A)) : option A :=
  match l with
  | [] => None
  | (k', v) :: l' => if decide (k' = k) then Some v else assoc k l'
  end.

Inductive exn :=
| RuntimeError (msg : string)
(** [ValueError(f"Missing required features: {missing_features}")] *)
| MissingRequiredFeatures (missing_features : gset string)
(** [KeyError] of a column selection: the labels not in the columns *)
| KeyError (labels : list string)
| IndexError
| TypeError
(** [NameError]: the name is bound neither in the function nor in the module *)
| NameError (name : string)
| ValueError (msg : string)
| OverflowError
(** whatever the model, [xgb.DMatrix] or the scaler raised *)
| ExternalError (code : nat)
(** [ValueError(f"Missing features: {missing_features}")] *)
| MissingFeatures (missing_features : gset string)
(** [ValueError(f"Feature preprocessing error: {e}")] *)
| FeaturePreprocessingError (cause : exn)
(** [RuntimeError(f"Prediction error: {e}")] *)
| PredictionError (cause : exn)
(** [RuntimeError(f"Batch prediction error: {e}")] *)
| BatchPredictionError (cause : exn).

Inductive result (A : Type) :=
| Ok (a : A)
| Raise (e : exn).
Arguments Ok {A} a.
Arguments Raise {A} e.

#[global] Instance result_ret : MRet result := λ A a, Ok a.
#[global] Instance result_bind : MBind result := λ A B f m,
  match m with Ok a => f a | Raise e => Raise e end.
#[global] Instance result_fmap : FMap result := λ A B f m,
  match m with Ok a => Ok (f a) | Raise e => Raise e end.

(** A prediction: an [int] class label or a [float] value. *)
Inductive number :=
| PInt (n : Z)
| PFloat (x : float).

(** [int(b)] of a [bool]. *)
Definition int_of_bool (b : bool) : Z := if b then 1 else 0.

(** [int(x)] of a float: truncation toward zero. *)
Definition int_of_float (x : float) : result Z :=
  match x with
  | S754_zero _ => Ok 0
  | S754_finite s m e =>
      let a := Z.shiftl (Z.pos m) e in Ok (if s then - a else a)
  | S754_infinity _ => Raise OverflowError
  | S754_nan => Raise (ValueError "cannot convert float NaN to integer")
  end.

(** [except ValueError]: the exceptions of the model that are [ValueError]s. *)
Definition is_ValueError (e : exn) : bool :=
  match e with
  | ValueError _ | MissingRequiredFeatures _ | MissingFeatures _
  | FeaturePreprocessingError _ => true
  | _ => false
  end.

(** [xs[0]] *)
Definition getitem0 {A} (xs : list A) : result A :=
  match xs with
  | x :: _ => Ok x
  | [] => Raise IndexError
  end.

(** ** Calls that log, count and raise

    [M S A] is a call on a state [S] that returns an [A] or raises; the
    state it leaves behind is kept in both cases. *)

Definition M (S A : Type) : Type := S → result A * S.

#[global] Instance M_ret {S} : MRet (M S) := λ A a s, (Ok a, s).
#[global] Instance M_bind {S} : MBind (M S) := λ A B f m s,
  match m s with
  | (Ok a, s') => f a s'
  | (Raise e, s') => (Raise e, s')
  end.

Definition raise {S A} (e : exn) : M S A := λ s, (Raise e, s).
Definition lift {S A} (r : result A) : M S A := λ s, (r, s).

(** [try: body  except <handles> as e: handler(e)] *)
Definition try_except {S A} (body : M S A) (handles : exn → bool)
    (handler : exn → M S A) : M S A := λ s,
  match body s with
  | (Ok a, s') => (Ok a, s')
  | (Raise e, s') => if handles e then handler e s' else (Raise e, s')
  end.

(** [for x in xs: acc = body(acc, x)] *)
Fixpoint for_loop {S A B} (body : B → A → M S B) (xs : list A) (acc : B) : M S B :=
  match xs with
  | [] => mret acc
  | x :: xs' => acc' ← body acc x; for_loop body xs' acc'
  end.

(** A list comprehension over a call that may raise. *)
Fixpoint for_each {S A B} (f : A → M S B) (xs : list A) : M S (list B) :=
  match xs with
  | [] => mret []
  | x :: xs' => y ← f x; ys ← for_each f xs'; mret (y :: ys)
  end.

(** ** The fragment of pandas the servers use *)

Module Pandas.

(** A frame, column by column; [nrows] is the length of its index. *)
Record DataFrame := {
  nrows : nat;
  data : list (string * list value)
}.

Definition columns (df : DataFrame) : list string := (data df).*1.

(** [pd.DataFrame([features])]: one row, one column per key, in the
    insertion order of the dict. *)
Definition DataFrame_of_record (features : dict) : DataFrame :=
  {| nrows := 1; data := (λ kv, (kv.1, [kv.2])) <$> features |}.

(** [df[names]] for a list of labels: the named columns in the order of
    [names]; [KeyError] naming the labels that are not columns. *)
Definition getitem (df : DataFrame) (names : list string) : result DataFrame :=
  match filter (λ c, assoc c (data df) = None) names with
  | [] =>
      Ok {| nrows := nrows df;
            data := omap (λ c, (c ,.) <$> assoc c (data df)) names |}
  | absent => Raise (KeyError absent)
  end.

(** [df[col] = vs] for a label that is a column. *)
Definition setitem (df : DataFrame) (col : string) (vs : list value) : DataFrame :=
  {| nrows := nrows df;
     data := (λ c : string * list value,
               if decide (c.1 = col) then (c.1, vs) else c) <$> data df |}.

(** [Series.astype(str)] (pandas 1.x and 2.x): every element, [None] and
    NaN included, becomes its [str()]. *)
Section astype.
Variable float_repr : float → string.

Definition str (v : value) : string :=
  match v with
  | VInt n => pretty n
  | VFloat x => float_repr x
  | VStr s => s
  | VNone => "None"
  end.

Definition astype_str (vs : list value) : list string := str <$> vs.
End astype.

(** [pd.Categorical(values)]: the categories are the distinct values in
    increasing order, the code of a value is its position among them. *)
Fixpoint insert_category (s : string) (cats : list string) : list string :=
  match cats with
  | [] => [s]
  | c :: cats' =>
      match String.compare s c with
      | Lt => s :: cats
      | Eq => cats
      | Gt => c :: insert_category s cats'
      end
  end.

Definition categories (values : list string) : list string :=
  foldr insert_category [] values.

(** Position of [s] in [cats]; [-1] when it is not a category. *)
Fixpoint code_of (cats : list string) (s : string) : Z :=
  match cats with
  | [] => -1
  | c :: cats' =>
      if decide (c = s) then 0
      else let i := code_of cats' s in if decide (i = -1) then -1 else i + 1
  end.

Definition Categorical_codes (values : list string) : list Z :=
  code_of (categories values) <$> values.

(** [df.fillna(0)]: [None] and NaN become 0, in the type of the column. *)
Definition fill0 (v : value) : value :=
  match v with
  | VNone => VInt 0
  | VFloat x => if is_nan x then VFloat zero else v
  | _ => v
  end.

Definition fillna0 (df : DataFrame) : DataFrame :=
  {| nrows := nrows df;
     data := (λ c : string * list value, (c.1, fill0 <$> c.2)) <$> data df |}.

(** [pd.concat(dfs, ignore_index=True)].  Every frame the servers pass
    carries the same labels in the same order (the schema's), so aligning
    the columns by label is aligning them by position. *)
Definition append (df1 df2 : DataFrame) : DataFrame :=
  {| nrows := nrows df1 + nrows df2;
     data := zip_with (λ c1 c2 : string * list value, (c1.1, (c1.2 ++ c2.2)%list))
                      (data df1) (data df2) |}.

Definition concat (dfs : list DataFrame) : result DataFrame :=
  match dfs with
  | [] => Raise (ValueError "No objects to concatenate")
  | df :: dfs' => Ok (foldl append df dfs')
  end.

End Pandas.

Import Pandas.

(** ** Training-time categorical encoding ([src/model/Train-And-Package.py])

    [preprocess_data] replaces every column that
    [select_dtypes(include=['object', 'category'])] selects by
    [pd.Categorical(X[col]).codes] and records only the column names in the
    schema.  The column is not converted with [astype(str)] first, so what
    the codes are depends on its dtype. *)

Module Train.

(** A column of the training frame at line 142, after the missing values
    were filled (lines 128 to 135):
      - an [object] column, taken with [str] values (what the servers are
        later asked about; an object column that holds other Python objects
        is outside this model);
      - a [category] column, which carries its categories (taken to be
        [str] as well) in their declared order and, for every row, the
        position of its value among them. *)
Inductive Series :=
| object (values : list string)
| category (categories : list string) (codes : list Z).

(** The categories of [pd.Categorical(X[col])]: inferred from an object
    column, the distinct values in increasing order; kept as declared for a
    category column. *)
Definition categories (column : Series) : list string :=
  match column with
  | object values => Pandas.categories values
  | category declared _ => declared
  end.

(** [pd.Categorical(X[col]).codes] *)
Definition encode_column (column : Series) : list Z :=
  match column with
  | object values => Categorical_codes values
  | category _ codes => codes
  end.

(** The code training gave to the category [v] of a column. *)
Definition training_code (column : Series) (v : string) : Z :=
  code_of (categories column) v.

End Train.

(** A list of [str] values is read as the object column that holds them. *)
#[warning="-uniform-inheritance"] Coercion Train.object : list >-> Train.Series.

(** ** [src/model/serve.py] *)

Module Serve.

(** [schema.json], the keys the server reads.  The feature names are the
    column labels of the training frame and are pairwise distinct; the
    theorems about an alignment that succeeds state it as
    [NoDup (feature_names schema)]. *)
Record Schema := {
  feature_names : list string;
  categorical_columns : option (list string);
  model_type : string;
  task_type : string
}.

Inductive log_record :=
  | IgnoringExtraFeatures (extra_features : gset string).

(** What a request can change: the counter of the server object and the
    records handed to the logger. *)
Record Server := {
  prediction_count : nat;
  logged : list log_record
}.

Definition warning (r : log_record) : M Server () := λ s,
  (Ok (), {| prediction_count := prediction_count s;
             logged := (logged s ++ [r])%list |}).
Definition count (n : nat) : M Server () := λ s,
  (Ok (), {| prediction_count := (prediction_count s + n)%nat;
             logged := logged s |}).

Section server.

(** The module globals. *)
Variable SCHEMA : option Schema.
Variable MODEL_LOADED : bool.

(** The external collaborators: [str] of a float, [xgb.DMatrix], and
    [MODEL.predict], which is handed a frame (LightGBM) or a [DMatrix]
    (XGBoost) and answers with one score per row, or raises. *)
Variable float_repr : float → string.
Variable DMatrix : Type.
Variable xgb_DMatrix : DataFrame → result DMatrix.
Variable MODEL_predict : DataFrame + DMatrix → result (list float).

(** [df[col] = pd.Categorical(df[col].astype(str)).codes], under
    [if col in df.columns]. *)
Definition encode_categorical (df : DataFrame) (col : string) : DataFrame :=
  match assoc col (data df) with
  | Some vs =>
      setitem df col (VInt <$> Categorical_codes (astype_str float_repr vs))
  | None => df
  end.

Definition preprocess_features (features : dict) : M Server DataFrame :=
  match SCHEMA with
  | None => raise (RuntimeError "Schema not loaded")
  | Some schema =>
      let df := DataFrame_of_record features in
      let required_features : gset string := list_to_set (feature_names schema) in
      let provided_features : gset string := list_to_set (keys features) in
      let missing_features := required_features ∖ provided_features in
      if decide (missing_features ≠ ∅)
      then raise (MissingRequiredFeatures missing_features)
      else
        let extra_features := provided_features ∖ required_features in
        df ← (if decide (extra_features ≠ ∅)
              then _ ← warning (IgnoringExtraFeatures extra_features);
                   lift (getitem df (feature_names schema))
              else lift (getitem df (feature_names schema)));
        let df :=
          match categorical_columns schema with
          | Some cols => foldl encode_categorical df cols
          | None => df
          end in
        mret (fillna0 df)
  end.

(** [MODEL.predict(X)] or [MODEL.predict(xgb.DMatrix(X))]. *)
Definition dispatch (schema : Schema) (X : DataFrame) : result (list float) :=
  if String.eqb (model_type schema) "lightgbm"
  then MODEL_predict (inl X)
  else dmatrix ← xgb_DMatrix X; MODEL_predict (inr dmatrix).

(** [abs(pred - 0.5) * 2] and [int(pred > 0.5)].  A [float32] score of
    XGBoost is a binary64 number as well; the arithmetic on it is taken in
    binary64, which is what NumPy 1.x computes for a scalar and a Python
    float. *)
Definition confidence_of (pred : float) : float :=
  mul (abs (sub pred half)) two.

Definition label_of (pred : float) : Z := int_of_bool (gt pred half).

Definition predict (features : dict) : M Server (number * option float) :=
  if negb MODEL_LOADED then raise (RuntimeError "Model not loaded")
  else
    X ← preprocess_features features;
    match SCHEMA with
    | None => raise TypeError
    | Some schema =>
        pred ← lift (preds ← dispatch schema X; getitem0 preds);
        let '(prediction, confidence) :=
          if String.eqb (task_type schema) "classification"
          then (PInt (label_of pred), Some (confidence_of pred))
          else (PFloat pred, None) in
        _ ← count 1;
        mret (prediction, confidence)
    end.

Definition predict_batch (features_list : list dict)
  : M Server (list number * option (list float)) :=
  if negb MODEL_LOADED then raise (RuntimeError "Model not loaded")
  else
    df_list ← for_each preprocess_features features_list;
    X ← lift (concat df_list);
    match SCHEMA with
    | None => raise TypeError
    | Some schema =>
        predictions ← lift (dispatch schema X);
        let '(predictions, confidences) :=
          if String.eqb (task_type schema) "classification"
          then (PInt ∘ label_of <$> predictions,
                Some (confidence_of <$> predictions))
          else (PFloat <$> predictions, None) in
        _ ← count (length features_list);
        mret (predictions, confidences)
    end.

End server.

End Serve.

(** ** [src/model-bot-backup/serve.py]

    The second implementation keeps the fitted [LabelEncoder] of every
    categorical column and the fitted scaler in the model package.  The
    timestamps it records ([last_prediction_time], the [timestamp] and
    [model_version] fields of a result) and its [logger.info] records are
    left out. *)

Module BotBackup.

(** [model_package['metadata']], the keys the server reads. *)
Record Metadata := {
  algorithm : string;
  task_type : string;
  feature_names : list string
}.

(** A fitted [sklearn.preprocessing.LabelEncoder]. *)
Record LabelEncoder := {
  classes_ : list string
}.

(** [encoder.transform(values)]: the position of every value in
    [classes_]; [ValueError] when a value is not among them. *)
Definition transform (encoder : LabelEncoder) (values : list string)
  : result (list Z) :=
  if forallb (λ v, bool_decide (v ∈ classes_ encoder)) values
  then Ok (code_of (classes_ encoder) <$> values)
  else Raise (ValueError "y contains previously unseen labels").

(** A NumPy array of rows. *)
Definition ndarray : Type := list (list value).

(** [df.values] *)
Definition values (df : DataFrame) : ndarray :=
  (λ i, (λ c : string * list value, default VNone (c.2 !! i)) <$> data df)
    <$> seq 0 (nrows df).

(** [model_package['preprocessors']]: the entries [label_encoder_<col>],
    keyed by [<col>], and the entry [scaler] with its [transform]. *)
Record Preprocessors := {
  label_encoder : gmap string LabelEncoder;
  scaler : option (DataFrame → result ndarray)
}.

(** The trained model: a LightGBM booster answers [predict] with one score
    per row; an XGBoost estimator answers [predict] with one label or value
    per row and [predict_proba] with one row of class probabilities per
    row.  A multiclass booster, whose [predict] rows are vectors, is
    outside this model. *)
Record Model := {
  model_predict : ndarray → result (list float);
  model_predict_proba : ndarray → result (list (list float))
}.

Inductive log_record :=
  | UnseenCategory (col : string)
  | PreprocessingFailed (e : exn)
  | PredictionFailed (e : exn)
  | BatchPredictionFailed (e : exn).

Record Server := {
  prediction_count : nat;
  logged : list log_record
}.

Definition log (r : log_record) : M Server () := λ s,
  (Ok (), {| prediction_count := prediction_count s;
             logged := (logged s ++ [r])%list |}).
Definition count (n : nat) : M Server () := λ s,
  (Ok (), {| prediction_count := (prediction_count s + n)%nat;
             logged := logged s |}).

Inductive probability_value :=
  | Prob (p : float)
  | Probs (ps : list float).

(** The result of [predict_single]. *)
Record Prediction := {
  prediction : number;
  probability : option probability_value
}.

(** The result of [predict_batch]. *)
Record BatchPrediction := {
  predictions : list number;
  probabilities : option (list probability_value);
  processed_count : nat
}.

Section server.

(** The attributes of the server object that requests only read. *)
Variable model : option Model.
Variable preprocessors : Preprocessors.
Variable metadata : Metadata.

Variable float_repr : float → string.

(** The body of [for col in df.columns:]. *)
Definition encode_column (df : DataFrame) (col : string) : M Server DataFrame :=
  match label_encoder preprocessors !! col, assoc col (data df) with
  | Some encoder, Some vs =>
      try_except
        (codes ← lift (transform encoder (astype_str float_repr vs));
         mret (setitem df col (VInt <$> codes)))
        is_ValueError
        (λ _,
           _ ← log (UnseenCategory col);
           first ← lift (getitem0 (classes_ encoder));
           codes ← lift (transform encoder [first]);
           code ← lift (getitem0 codes);
           mret (setitem df col (replicate (nrows df) (VInt code))))
  | _, _ => mret df
  end.

(** Line 132 computes [missing_features] as
    [set(cast(Sequence[str], metadata.get("required_features", [])))].  The
    module binds none of the names [cast], [Sequence] and [metadata]: [cast]
    is imported inside [df_records] only, and the metadata is the attribute
    [self.metadata].  Evaluating the argument of [set] looks [cast] up first
    and raises [NameError]; the annotation [Set[str]] of a local is not
    evaluated.  The statements after line 132 are kept as the source has
    them. *)
Definition preprocess_features (features : dict) : M Server ndarray :=
  try_except
    (let df := DataFrame_of_record features in
     missing_features ← (raise (NameError "cast") : M Server (gset string));
     if decide (missing_features ≠ ∅)
     then raise (MissingFeatures missing_features)
     else
       df ← lift (getitem df (feature_names metadata));
       df ← for_loop encode_column (columns df) df;
       match scaler preprocessors with
       | Some scaler_transform => lift (scaler_transform df)
       | None => mret (values df)
       end)
    (λ _, true)
    (λ e, _ ← log (PreprocessingFailed e);
          raise (FeaturePreprocessingError e)).

(** The LightGBM branch on a scalar score: [isinstance(prediction,
    (int, float))] holds of a NumPy [float64]. *)
Definition normalize_lightgbm (prediction : float) : result Prediction :=
  if String.eqb (task_type metadata) "classification"
  then
    let probability := if le prediction one then Some prediction else None in
    match probability with
    | Some p =>
        Ok {| prediction := PInt (int_of_bool (gt prediction half));
              probability := Some (Prob p) |}
    | None =>
        n ← int_of_float prediction;
        Ok {| prediction := PInt n; probability := None |}
    end
  else Ok {| prediction := PFloat prediction; probability := None |}.

Definition predict_xgboost (m : Model) (X : ndarray) : result Prediction :=
  if String.eqb (task_type metadata) "classification"
  then
    labels ← model_predict m X;
    label ← getitem0 labels;
    n ← int_of_float label;
    probas ← model_predict_proba m X;
    prediction_proba ← getitem0 probas;
    match prediction_proba with
    | [_; p1] => Ok {| prediction := PInt n; probability := Some (Prob p1) |}
    | _ => Ok {| prediction := PInt n;
                 probability := Some (Probs prediction_proba) |}
    end
  else
    preds ← model_predict m X;
    pred ← getitem0 preds;
    Ok {| prediction := PFloat pred; probability := None |}.

Definition predict_single (features : dict) : M Server Prediction :=
  match model with
  | None => raise (RuntimeError "Model not loaded")
  | Some m =>
      try_except
        (X ← preprocess_features features;
         result ← lift
           (if String.eqb (algorithm metadata) "lightgbm"
            then preds ← model_predict m X;
                 prediction ← getitem0 preds;
                 normalize_lightgbm prediction
            else predict_xgboost m X);
         _ ← count 1;
         mret result)
        (λ _, true)
        (λ e, _ ← log (PredictionFailed e); raise (PredictionError e))
  end.

(** The body of [for instance in instances:]. *)
Definition batch_step (acc : list number * list probability_value)
    (instance : dict) : M Server (list number * list probability_value) :=
  result ← predict_single instance;
  mret ((acc.1 ++ [prediction result])%list,
        match probability result with
        | Some p => (acc.2 ++ [p])%list
        | None => acc.2
        end).

Definition predict_batch (instances : list dict) : M Server BatchPrediction :=
  match model with
  | None => raise (RuntimeError "Model not loaded")
  | Some _ =>
      try_except
        (acc ← for_loop batch_step instances ([], []);
         mret {| predictions := acc.1;
                 probabilities :=
                   match acc.2 with [] => None | ps => Some ps end;
                 processed_count := length acc.1 |})
        (λ _, true)
        (λ e, _ ← log (BatchPredictionFailed e);
              raise (BatchPredictionError e))
  end.

End server.

End BotBackup.

(** ** What alignment computes, stated directly

    The frame [Serve.preprocess_features] is shown below to return for a
    record that provides every schema feature. *)

Module Aligned.
Import Serve.

Definition is_categorical (schema : Schema) (c : string) : bool :=
  bool_decide (c ∈ default [] (categorical_columns schema)).

(** The single cell of the column of feature [c]. *)
Definition cell (schema : Schema) (features : dict) (c : string) : value :=
  if is_categorical schema c then VInt 0
  else fill0 (default VNone (assoc c features)).

Definition frame (schema : Schema) (features : dict) : DataFrame :=
  {| nrows := 1;
     data := (λ c, (c, [cell schema features c])) <$> feature_names schema |}.

(** The state [preprocess_features] leaves: a warning when the record has
    keys that are not schema features. *)
Definition after (schema : Schema) (features : dict) (s : Server) : Server :=
  let extra_features : gset string :=
    list_to_set (keys features) ∖ list_to_set (feature_names schema) in
  if decide (extra_features ≠ ∅)
  then {| prediction_count := prediction_count s;
          logged := (logged s ++ [IgnoringExtraFeatures extra_features])%list |}
  else s.

(** A frame of one-cell columns given by a function of the label. *)
Definition tabulate (names : list string) (g : string → list value) : DataFrame :=
  {| nrows := 1; data := (λ c, (c, g c)) <$> names |}.

(** [predict_batch(...)[0]]: position 0 of the predictions and of the
    confidences of a batch result. *)
Definition at0 (r : list number * option (list float))
  : result (number * option float) :=
  p ← getitem0 r.1;
  c ← match r.2 with
      | None => Ok None
      | Some cs => Some <$> getitem0 cs
      end;
  Ok (p, c).

(** A call that raises from every state. *)
Definition fails {S A} (m : M S A) : Prop :=
  ∀ s, ∃ e s', m s = (Raise e, s').

(** A null of pandas: [None] or NaN; and the zero that replaces it. *)
Definition is_null (v : value) : Prop := v = VNone ∨ v = VFloat S754_nan.
Definition is_zero (v : value) : Prop := v = VInt 0 ∨ v = VFloat zero.

End Aligned.

(** ** Concrete schemas, records and models *)

Module Examples.
Import Serve.

Definition float_repr (x : float) : string :=
  match x with
  | S754_nan => "nan"
  | S754_infinity false => "inf"
  | S754_infinity true => "-inf"
  | S754_zero false => "0.0"
  | S754_zero true => "-0.0"
  | S754_finite s m e =>
      pretty (if s then Z.neg m else Z.pos m) +:+ "p" +:+ pretty e
  end.

(** Features [a] (numeric) and [b] (categorical); binary classification
    with LightGBM. *)
Definition schema_ab : Schema :=
  {| feature_names := ["a"; "b"];
     categorical_columns := Some ["b"];
     model_type := "lightgbm";
     task_type := "classification" |}.

(** One numeric feature. *)
Definition schema_a : Schema :=
  {| feature_names := ["a"];
     categorical_columns := Some [];
     model_type := "lightgbm";
     task_type := "classification" |}.

Definition server0 : Server := {| prediction_count := 0; logged := [] |}.

(** A model that scores every row [raw]. *)
Definition constant_model (raw : float) (X : DataFrame + unit)
  : result (list float) :=
  match X with
  | inl df => Ok (replicate (nrows df) raw)
  | inr _ => Raise (ExternalError 0)
  end.

Definition no_DMatrix (X : DataFrame) : result unit := Ok ().

(** The values of [b] in a training set, [x] and [y]. *)
Definition training_b : list string := ["x"; "y"; "x"].

Definition record_1y : dict := [("a", VFloat one); ("b", VStr "y")].
Definition record_1z : dict := [("a", VFloat one); ("b", VStr "z")].
Definition record_b_only : dict := [("b", VStr "z")].
Definition record_null : dict := [("a", VNone); ("b", VStr "z")].
Definition record_abc : dict := [("a", VStr "abc")].

(** The second implementation on the same schema: the encoder of [b]
    fitted on [training_b], no scaler. *)
Definition encoder_b : BotBackup.LabelEncoder :=
  {| BotBackup.classes_ := ["x"; "y"] |}.

Definition metadata_ab : BotBackup.Metadata :=
  {| BotBackup.algorithm := "lightgbm";
     BotBackup.task_type := "classification";
     BotBackup.feature_names := ["a"; "b"] |}.

Definition preprocessors_ab : BotBackup.Preprocessors :=
  {| BotBackup.label_encoder := {[ "b" := encoder_b ]};
     BotBackup.scaler := None |}.

Definition constant_booster (raw : float) : BotBackup.Model :=
  {| BotBackup.model_predict := λ X, Ok (replicate (length X) raw);
     BotBackup.model_predict_proba := λ X, Raise (ExternalError 0) |}.

Definition backup0 : BotBackup.Server :=
  {| BotBackup.prediction_count := 0; BotBackup.logged := [] |}.

End Examples.

(** ** Requests and batches of [src/model/serve.py] *)

(** [PredictionRequest.validate_features] *)
Module PredictionRequest.

Definition validate_features (v : dict) : result dict :=
  match v with
  | [] => Raise (ValueError "Features cannot be empty")
  | _ => Ok v
  end.

End PredictionRequest.

(** [BatchPredictionRequest.validate_features] *)
Module BatchPredictionRequest.

Definition validate_features (v : list dict) : result (list dict) :=
  match v with
  | [] => Raise (ValueError "Features list cannot be empty")
  | _ =>
      if decide (1000 < length v)%nat
      then Raise (ValueError "Batch size cannot exceed 1000 samples")
      else Ok v
  end.

End BatchPredictionRequest.

Module Batch.
Import Serve.

(** The frame that stacks the aligned rows of the records of a batch, in
    the order of the batch. *)
Definition frame (schema : Schema) (records : list dict) : DataFrame :=
  {| nrows := length records;
     data := (λ c, (c, (λ r, Aligned.cell schema r c) <$> records))
               <$> feature_names schema |}.

(** The state that aligning the records one after the other leaves. *)
Definition after (schema : Schema) (records : list dict) (s : Server) : Server :=
  foldl (λ s r, Aligned.after schema r s) s records.




(** A record that provides every schema feature. *)
Definition complete (schema : Schema) (features : dict) : Prop :=
  ∀ c, c ∈ feature_names schema → c ∈ keys features.

(** The records of a feature dict that are schema features. *)
Definition restrict (schema : Schema) (features : dict) : dict :=
  filter (λ kv, kv.1 ∈ feature_names schema) features.

End Batch.

(** ** Training of the second implementation
    ([src/model-bot-backup/Train-And-Package.py])

    [preprocess_data] fits one [LabelEncoder] per categorical column on the
    column as strings, [le.fit_transform(X[col].astype(str))], and stores
    it under [label_encoder_<col>]. *)

Module BackupTrain.
Import BotBackup.



End BackupTrain.

(** Strings in the order of [str.__lt__]; [least v column] says that [v] is
    not greater than any value of the column. *)
Definition str_lt (a b : string) : Prop := String.compare a b = Lt.

Definition least (v : string) (column : list string) : Prop :=
  ∀ w, w ∈ column → String.compare v w ≠ Gt.

(** ** The endpoints of the second implementation

    An endpoint answers with a body or raises [HTTPException]; the
    [logger.error] records of the endpoints themselves are left out, and the
    response models are taken to accept what the server returns. *)

Module BackupApp.
Import BotBackup.

Inductive response (A : Type) :=
| Body (body : A)
| HTTPException (status_code : nat) (detail : exn).
Arguments Body {A} body.
Arguments HTTPException {A} status_code detail.

Definition status_code {A} (r : response A) : nat :=
  match r with
  | Body _ => 200
  | HTTPException code _ => code
  end.

(** [try: ... except ValueError: 400  except Exception: 500] *)
Definition respond {A} (r : result A) : response A :=
  match r with
  | Ok body => Body body
  | Raise e =>
      if is_ValueError e then HTTPException 400 e else HTTPException 500 e
  end.

Section app.
Variable model : option Model.
Variable preprocessors : Preprocessors.
Variable metadata : Metadata.
Variable float_repr : float → string.

Definition score_single (features : dict) (s : Server)
  : response Prediction * Server :=
  let '(r, s') := predict_single model preprocessors metadata float_repr features s in
  (respond r, s').

Definition score_batch (instances : list dict) (s : Server)
  : response BatchPrediction * Server :=
  match instances with
  | [] =>
      (respond (Raise (ValueError "No instances provided for batch prediction")), s)
  | _ =>
      if decide (1000 < length instances)%nat
      then (respond (Raise (ValueError "Batch size too large (max 1000 instances)")), s)
      else
        let '(r, s') :=
          predict_batch model preprocessors metadata float_repr instances s in
        (respond r, s')
  end.

End app.

End BackupApp.

(** ** Loading and the endpoints of [src/model/serve.py]

    [load_model] reads [schema.json] and [model.pkl] under the model
    directory into the module globals; the endpoints read the globals.  What
    is on disk is external: a file is absent, or reading it raises, or it
    yields a JSON object or a model; the values under the keys of the
    object have the types the training script writes.  The attributes
    [self.schema] and [self.model], which nothing else reads, the [logger] records of
    [load_model] and of the endpoints, and the [model_version],
    [timestamp], [uptime] and [processing_time_ms] fields of the responses
    are left out. *)

Module App.
Import Serve.

Inductive response (E A : Type) :=
| Body (body : A)
| HTTPException (status_code : nat) (detail : E).
Arguments Body {E A} body.
Arguments HTTPException {E A} status_code detail.

Definition status_code {E A} (r : response E A) : nat :=
  match r with
  | Body _ => 200
  | HTTPException code _ => code
  end.

(** What [load_model] raises. *)
Inductive load_error :=
| FileNotFoundError (file : string)
| ReadError (e : exn)
(** [KeyError] of a subscript of the schema in the last [logger.info] lines *)
| SchemaKeyError (key : string).

Record PredictionResponse := {
  prediction : number;
  confidence : option float;
  request_id : option string
}.

Record HealthResponse := {
  status : string;
  model_loaded : bool;
  model_type : option string
}.

(** A parsed [schema.json], a JSON object: the keys the server reads, each
    present or absent, and whether the object has any other key. *)
Record SchemaJson := {
  json_feature_names : option (list string);
  json_categorical_columns : option (list string);
  json_model_type : option string;
  json_task_type : option string;
  json_other_keys : bool
}.

(** [not SCHEMA] of a dict: it has no key. *)
Definition empty (j : SchemaJson) : bool :=
  match json_feature_names j, json_categorical_columns j,
        json_model_type j, json_task_type j with
  | None, None, None, None => negb (json_other_keys j)
  | _, _, _, _ => false
  end.

(** The schema of a JSON object that has the three keys [predict]
    subscripts. *)
Definition complete (j : SchemaJson) : option Schema :=
  names ← json_feature_names j;
  model_type ← json_model_type j;
  task_type ← json_task_type j;
  Some {| feature_names := names;
          categorical_columns := json_categorical_columns j;
          Serve.model_type := model_type;
          task_type := task_type |}.

(** Lines 155 to 158, the [logger.info] calls that end [load_model]: they
    subscript [self.schema] with [model_type], [task_type] and
    [feature_names], in this order; the first key that is absent raises
    [KeyError]. *)
Definition log_loaded (j : SchemaJson) : option load_error :=
  match json_model_type j, json_task_type j, json_feature_names j with
  | None, _, _ => Some (SchemaKeyError "model_type")
  | Some _, None, _ => Some (SchemaKeyError "task_type")
  | Some _, Some _, None => Some (SchemaKeyError "feature_names")
  | Some _, Some _, Some _ => None
  end.

Section app.
Variable float_repr : float → string.
Variable DMatrix : Type.
Variable xgb_DMatrix : DataFrame → result DMatrix.

(** A loaded model, by its [predict]. *)
Definition Model : Type := DataFrame + DMatrix → result (list float).

(** The module globals [MODEL], [SCHEMA] and [MODEL_LOADED]. *)
Record Globals := {
  MODEL : option Model;
  SCHEMA : option SchemaJson;
  MODEL_LOADED : bool
}.


(** The two files under the model directory. *)
Record Disk := {
  model_pkl : option (result Model);
  schema_json : option (result SchemaJson)
}.

(** [NovaModelServer.load_model]: the error it raises, if any, and the
    globals it leaves.  [SCHEMA] is assigned before the model is unpickled,
    and [MODEL_LOADED] before the last [logger.info] lines. *)
Definition load_model (disk : Disk) (g : Globals) : option load_error * Globals :=
  match model_pkl disk, schema_json disk with
  | None, _ => (Some (FileNotFoundError "model.pkl"), g)
  | Some _, None => (Some (FileNotFoundError "schema.json"), g)
  | Some _, Some (Raise e) => (Some (ReadError e), g)
  | Some pickled, Some (Ok j) =>
      match pickled with
      | Raise e =>
          (Some (ReadError e),
           {| MODEL := MODEL g; SCHEMA := Some j;
              MODEL_LOADED := MODEL_LOADED g |})
      | Ok model =>
          (log_loaded j,
           {| MODEL := Some model; SCHEMA := Some j;
              MODEL_LOADED := true |})
      end
  end.




(** [POST /model/reload] *)
Definition reload_model (disk : Disk) (g : Globals)
  : response load_error () * Globals :=
  match load_model disk g with
  | (None, g') => (Body (), g')
  | (Some e, g') => (HTTPException 500 e, g')
  end.

(** [MODEL.predict]; on [MODEL = None] the attribute access raises. *)
Definition MODEL_predict (g : Globals) : Model :=
  default (λ _, Raise (ExternalError 0)) (MODEL g).

(** [NovaModelServer.predict] on the globals.  Module [Serve] has it for a
    [SCHEMA] with the three keys it subscripts.  On a [SCHEMA] that lacks
    one of them the same statements run up to the first that raises:
    [if not SCHEMA] at the start of [preprocess_features] for a dict
    without keys, else the subscript [SCHEMA['feature_names']] after it,
    then [SCHEMA['model_type']], then [SCHEMA['task_type']] after the model
    was called. *)
Definition predict (g : Globals) (features : dict)
  : M Server (number * option float) :=
  match SCHEMA g with
  | None =>
      Serve.predict None (MODEL_LOADED g) float_repr DMatrix xgb_DMatrix
        (MODEL_predict g) features
  | Some j =>
      match complete j with
      | Some schema =>
          Serve.predict (Some schema) (MODEL_LOADED g) float_repr DMatrix
            xgb_DMatrix (MODEL_predict g) features
      | None =>
          if negb (MODEL_LOADED g) then raise (RuntimeError "Model not loaded")
          else if empty j then raise (RuntimeError "Schema not loaded")
          else
            match json_feature_names j with
            | None => raise (KeyError ["feature_names"])
            | Some names =>
                let schema model_type :=
                  {| feature_names := names;
                     categorical_columns := json_categorical_columns j;
                     Serve.model_type := model_type;
                     task_type := "" |} in
                X ← preprocess_features (Some (schema "")) float_repr features;
                match json_model_type j with
                | None => raise (KeyError ["model_type"])
                | Some model_type =>
                    _ ← lift (preds ← dispatch DMatrix xgb_DMatrix
                                        (MODEL_predict g) (schema model_type) X;
                              getitem0 preds);
                    raise (KeyError ["task_type"])
                end
            end
      end
  end.

(** [GET /health] *)
Definition health_check (g : Globals) : HealthResponse :=
  {| status := if MODEL_LOADED g then "healthy" else "unhealthy";
     model_loaded := MODEL_LOADED g;
     model_type := SCHEMA g ≫= json_model_type |}.

(** [POST /score] *)
Definition score (g : Globals) (features : dict) (id : option string)
    (s : Server) : response exn PredictionResponse * Server :=
  match predict g features s with
  | (Ok (p, c), s') =>
      (Body {| prediction := p; confidence := c; request_id := id |}, s')
  | (Raise e, s') => (HTTPException 400 e, s')
  end.

End app.

End App.

(** ** More concrete records, models and disks *)

Module Fixtures.
Import Serve Examples.



Definition record_extra : dict :=
  [("c", VInt 7); ("a", VFloat one); ("b", VStr "z")].

(** A category column of sizes, declared in the order S, M, L, with the
    rows M, S, L, M. *)
Definition training_sizes : Train.Series :=
  Train.category ["S"; "M"; "L"] [1; 0; 2; 1].

Definition record_size (v : string) : dict := [("a", VFloat one); ("b", VStr v)].



(** The JSON object of a schema, with other keys beside those the server
    reads, as training writes it. *)
Definition json (schema : Schema) : App.SchemaJson :=
  {| App.json_feature_names := Some (feature_names schema);
     App.json_categorical_columns := categorical_columns schema;
     App.json_model_type := Some (model_type schema);
     App.json_task_type := Some (task_type schema);
     App.json_other_keys := true |}.

(** Globals after a successful load, and four disks: nothing on it; a model
    and a schema; a schema and a model file that does not unpickle; a model
    and a schema without [task_type]. *)
Definition loaded : App.Globals unit :=
  {| App.MODEL := Some (constant_model half);
     App.SCHEMA := Some (json schema_a);
     App.MODEL_LOADED := true |}.



Definition disk_bad_pickle : App.Disk unit :=
  {| App.model_pkl := Some (Raise (ExternalError 1));
     App.schema_json := Some (Ok (json schema_ab)) |}.



End Fixtures.

(** * Properties *)

(** ** Association lists *)

Section assoc_facts.
Context {A : Type}.
Implicit Types (l : list (string * A)) (k : string).

Lemma assoc_None k l : assoc k l = None ↔ k ∉ l.*1.
Proof.
  induction l as [|[k' v] l IH]; simpl.
  - split; [intros _; apply not_elem_of_nil | done].
  - case_decide as Hk.
    + subst. split; [done|]. intros H. exfalso. apply H. left.
    + rewrite IH, not_elem_of_cons. intuition congruence.
Qed.




Lemma assoc_fmap {B} (f : A → B) k l :
  assoc k ((λ kv, (kv.1, f kv.2)) <$> l) = f <$> assoc k l.
Proof.
  induction l as [|[k' v] l IH]; csimpl; [done|]. by case_decide.
Qed.

Lemma assoc_tabulate (g : string → A) k (names : list string) :
  assoc k ((λ c, (c, g c)) <$> names)
  = if decide (k ∈ names) then Some (g k) else None.
Proof.
  induction names as [|c names IH]; csimpl.
  - destruct (decide (k ∈ [])) as [Hin|]; [by apply elem_of_nil in Hin | done].
  - rewrite IH.
    destruct (decide (c = k)) as [->|Hc], (decide (k ∈ names)) as [Hin|Hin],
      (decide (k ∈ _ :: names)) as [Hin'|Hin']; try done;
      rewrite elem_of_cons in Hin'; intuition congruence.
Qed.
End assoc_facts.

Import Serve Aligned.

(** ** Alignment in [src/model/serve.py] *)

Lemma tabulate_ext names (g g' : string → list value) :
  (∀ c, c ∈ names → g c = g' c) → tabulate names g = tabulate names g'.
Proof.
  intros H. unfold tabulate. f_equal.
  apply list_fmap_ext. intros i c Hc. rewrite H; [done|].
  by apply list_elem_of_lookup_2 in Hc.
Qed.

Lemma absent_nil {A} (l : list (string * A)) names :
  (∀ c, c ∈ names → c ∈ l.*1) → filter (λ c, assoc c l = None) names = [].
Proof.
  induction names as [|c names IH]; intros Hall; [done|].
  rewrite filter_cons, decide_False.
  - apply IH. intros c' Hc'. apply Hall. by right.
  - rewrite assoc_None. intros Hc. apply Hc, Hall. left.
Qed.

Lemma absent_cons {A} (l : list (string * A)) names c :
  c ∈ names → c ∉ l.*1 → filter (λ c, assoc c l = None) names ≠ [].
Proof.
  intros Hc Hl Hnil.
  assert (c ∈ filter (λ c, assoc c l = None) names) as Hin
    by (apply list_elem_of_filter; split; [by apply assoc_None | done]).
  rewrite Hnil in Hin. by apply elem_of_nil in Hin.
Qed.

Lemma columns_record features : columns (DataFrame_of_record features) = keys features.
Proof.
  unfold columns, DataFrame_of_record, keys. cbn [data].
  rewrite <- list_fmap_compose. by apply list_fmap_ext.
Qed.

Lemma getitem_record features names :
  (∀ c, c ∈ names → c ∈ keys features) →
  getitem (DataFrame_of_record features) names
  = Ok (tabulate names (λ c, [default VNone (assoc c features)])).
Proof.
  intros Hall. unfold getitem.
  rewrite absent_nil
    by (by fold (columns (DataFrame_of_record features)); rewrite columns_record).
  unfold DataFrame_of_record, tabulate. cbn [data nrows].
  assert (∀ c, assoc c ((λ kv : string * value, (kv.1, [kv.2])) <$> features)
               = (λ v, [v]) <$> assoc c features) as Hassoc
    by (intros c; apply (assoc_fmap (λ v : value, [v]))).
  do 2 f_equal. clear -Hall Hassoc.
  induction names as [|c names IH]; csimpl; [done|].
  rewrite Hassoc.
  destruct (assoc c features) as [v|] eqn:E; csimpl.
  - f_equal. apply IH. intros c' Hc'. apply Hall. by right.
  - exfalso. apply assoc_None in E. apply E, Hall. left.
Qed.

Lemma Categorical_codes_singleton s : Categorical_codes [s] = [0].
Proof.
  unfold Categorical_codes, categories. cbn. by rewrite decide_True.
Qed.

Section encode.
Variable float_repr : float → string.

Lemma encode_categorical_tabulate names (v : string → value) col :
  encode_categorical float_repr (tabulate names (λ c, [v c])) col
  = tabulate names (λ c, [if decide (c = col) then VInt 0 else v c]).
Proof.
  unfold encode_categorical, tabulate at 1. cbn [data].
  rewrite assoc_tabulate. case_decide as Hin.
  - unfold astype_str. cbn [fmap list_fmap]. rewrite Categorical_codes_singleton.
    unfold setitem, tabulate. cbn [data nrows fmap list_fmap]. f_equal.
    rewrite <- list_fmap_compose. apply list_fmap_ext. intros i c _. cbn.
    by case_decide.
  - apply tabulate_ext. intros c Hc. rewrite decide_False; [done|]. by intros ->.
Qed.

Lemma foldl_encode_categorical names cols (v : string → value) :
  foldl (encode_categorical float_repr) (tabulate names (λ c, [v c])) cols
  = tabulate names (λ c, [if decide (c ∈ cols) then VInt 0 else v c]).
Proof.
  revert v. induction cols as [|col cols IH]; intros v; cbn [foldl].
  - apply tabulate_ext. intros c _.
    rewrite decide_False; [done | apply not_elem_of_nil].
  - rewrite encode_categorical_tabulate, IH. apply tabulate_ext. intros c _.
    destruct (decide (c ∈ cols)) as [Hc|Hc], (decide (c = col)) as [Heq|Hne],
      (decide (c ∈ col :: cols)) as [Hc'|Hc']; try done;
      rewrite elem_of_cons in Hc'; intuition congruence.
Qed.
End encode.

Lemma fillna0_tabulate names (v : string → value) :
  fillna0 (tabulate names (λ c, [v c])) = tabulate names (λ c, [fill0 (v c)]).
Proof.
  unfold fillna0, tabulate. cbn [data nrows]. f_equal.
  rewrite <- list_fmap_compose. by apply list_fmap_ext.
Qed.

Section preprocess.
Variable float_repr : float → string.
Variable schema : Schema.

Lemma missing_empty features :
  (list_to_set (feature_names schema) ∖ list_to_set (keys features)
     : gset string) = ∅
  ↔ ∀ c, c ∈ feature_names schema → c ∈ keys features.
Proof.
  split.
  - intros H%empty_difference_subseteq_L c Hc.
    specialize (H c). rewrite !elem_of_list_to_set in H. auto.
  - intros H. apply subseteq_empty_difference_L. intros c.
    rewrite !elem_of_list_to_set. auto.
Qed.

(** A record that provides every schema feature is aligned to
    [frame schema features]: the cells in schema order, 0 in every
    categorical column, nulls replaced by 0 elsewhere. *)
Theorem preprocess_features_aligned features s :
  (∀ c, c ∈ feature_names schema → c ∈ keys features) →
  preprocess_features (Some schema) float_repr features s
  = (Ok (frame schema features), after schema features s).
Proof.
  intros Hall. unfold preprocess_features.
  rewrite decide_False by (intros H; apply H; by apply missing_empty).
  assert (∀ df : DataFrame,
    (match categorical_columns schema with
     | Some cols => foldl (encode_categorical float_repr) df cols
     | None => df end)
    = foldl (encode_categorical float_repr) df
        (default [] (categorical_columns schema)))
    as Hcat by (intros df; by destruct (categorical_columns schema)).
  unfold after, mbind, M_bind, warning, lift, mret, M_ret.
  case_decide; rewrite getitem_record by done;
    rewrite Hcat, foldl_encode_categorical, fillna0_tabulate;
    do 2 f_equal;  apply tabulate_ext; intros c _;
    unfold cell, is_categorical; by case_bool_decide; case_decide.
Qed.
End preprocess.

Section serve_claims.
Variable float_repr : float → string.
Variable DMatrix : Type.
Variable xgb_DMatrix : DataFrame → result DMatrix.
Variable MODEL_predict : DataFrame + DMatrix → result (list float).

Abbreviation preprocess schema :=
  (preprocess_features (Some schema) float_repr).
Abbreviation predict_with schema :=
  (predict (Some schema) true float_repr DMatrix xgb_DMatrix MODEL_predict).
Abbreviation dispatch_with := (dispatch DMatrix xgb_DMatrix MODEL_predict).

Lemma preprocess_features_missing schema features s :
  (∃ c, c ∈ feature_names schema ∧ c ∉ keys features) →
  preprocess schema features s
  = (Raise (MissingRequiredFeatures
              (list_to_set (feature_names schema) ∖ list_to_set (keys features))), s).
Proof.
  intros (c & Hc & Hk). unfold preprocess_features.
  rewrite decide_True; [done|].
  intros H. rewrite missing_empty in H. auto.
Qed.

(** Missing-feature rejection in [src/model/serve.py], the implementation
    that does what C4 says.  A record whose key set is a strict subset of
    the schema's feature set is rejected: [preprocess_features] raises the
    missing-features error carrying exactly the schema features absent from
    the record, and [predict] raises it too, before any model call and
    without counting a prediction. *)
Theorem missing_feature_rejection schema features s :
  (list_to_set (keys features) : gset string) ⊂ list_to_set (feature_names schema) →
  let missing_features : gset string :=
    list_to_set (feature_names schema) ∖ list_to_set (keys features) in
  preprocess schema features s = (Raise (MissingRequiredFeatures missing_features), s)
  ∧ predict_with schema features s = (Raise (MissingRequiredFeatures missing_features), s)
  ∧ ∀ c, c ∈ missing_features ↔ c ∈ feature_names schema ∧ c ∉ keys features.
Proof.
  intros Hsub missing_features.
  assert (∃ c, c ∈ feature_names schema ∧ c ∉ keys features) as Hex.
  { destruct Hsub as [_ Hsub].
    destruct (set_choose_L missing_features) as [c Hc].
    - intros H. by apply Hsub, empty_difference_subseteq_L.
    - exists c. apply elem_of_difference in Hc.
      by rewrite !elem_of_list_to_set in Hc. }
  split_and!.
  - by apply preprocess_features_missing.
  - unfold predict. cbn [negb]. unfold mbind, M_bind.
    by rewrite preprocess_features_missing.
  - intros c. unfold missing_features.
    by rewrite elem_of_difference, !elem_of_list_to_set.
Qed.

(** Alignment succeeds exactly on the records that provide every schema
    feature. *)
Lemma preprocess_features_cases schema features s :
  (∀ c, c ∈ feature_names schema → c ∈ keys features)
    ∧ preprocess schema features s = (Ok (frame schema features), after schema features s)
  ∨ (∃ c, c ∈ feature_names schema ∧ c ∉ keys features)
    ∧ preprocess schema features s
      = (Raise (MissingRequiredFeatures
                  (list_to_set (feature_names schema) ∖ list_to_set (keys features))), s).
Proof.
  destruct (decide (Forall (λ c, c ∈ keys features) (feature_names schema)))
    as [Hall|Hex].
  - rewrite Forall_forall in Hall. left. split; [done|].
    by apply preprocess_features_aligned.
  - apply not_Forall_Exists in Hex; [|apply _].
    apply Exists_exists in Hex. right. split; [done|].
    by apply preprocess_features_missing.
Qed.





(** C9.  Whatever the record holds, every declared categorical feature of
    an aligned single-record frame carries the code 0: the codes are
    recomputed from the one row of the request. *)
Theorem categorical_code_always_zero schema cols features s df s' :
  NoDup (feature_names schema) →
  categorical_columns schema = Some cols →
  preprocess schema features s = (Ok df, s') →
  ∀ col, col ∈ cols → col ∈ feature_names schema →
    assoc col (data df) = Some [VInt 0].
Proof.
  intros _ Hcols Hrun col Hcol Hname.
  destruct (preprocess_features_cases schema features s) as [[_ H]|[_ H]];
    rewrite H in Hrun; [|done].
  injection Hrun as <- _. unfold frame. cbn [data].
  rewrite assoc_tabulate, decide_True by done.
  unfold cell, is_categorical. rewrite Hcols. cbn [default].
  by rewrite bool_decide_eq_true_2.
Qed.

(** Two records with the same keys that agree outside the categorical
    columns are aligned alike: the categorical values play no role. *)
Lemma categorical_value_ignored schema r1 r2 s :
  keys r1 = keys r2 →
  (∀ c, is_categorical schema c = false → assoc c r1 = assoc c r2) →
  preprocess schema r1 s = preprocess schema r2 s.
Proof.
  intros Hkeys Hsame.
  destruct (preprocess_features_cases schema r1 s) as [[Hall ->]|[Hex ->]].
  - rewrite preprocess_features_aligned by (by rewrite <- Hkeys).
    unfold after. rewrite Hkeys. do 2 f_equal.
    unfold frame. f_equal. apply list_fmap_ext. intros _ c _.
    unfold cell. destruct (is_categorical schema c) eqn:E; [done|].
    by rewrite Hsame.
  - rewrite preprocess_features_missing by (by rewrite <- Hkeys).
    by rewrite Hkeys.
Qed.

(** C10.  A feature that is present but null does not make alignment
    fail: when the record provides every schema feature, alignment
    succeeds and the null is replaced by 0 in the aligned frame. *)
Theorem null_feature_filled_with_zero schema features s f v :
  NoDup (feature_names schema) →
  (∀ c, c ∈ feature_names schema → c ∈ keys features) →
  f ∈ feature_names schema →
  assoc f features = Some v →
  is_null v →
  ∃ df s', preprocess schema features s = (Ok df, s')
           ∧ ∃ z, assoc f (data df) = Some [z] ∧ is_zero z.
Proof.
  intros _ Hall Hf Hv Hnull.
  eexists _, _. split; [by apply preprocess_features_aligned|].
  unfold frame. cbn [data]. rewrite assoc_tabulate, decide_True by done.
  eexists. split; [done|].
  unfold cell. rewrite Hv. cbn [default].
  destruct (is_categorical schema f); [by left|].
  destruct Hnull as [-> | ->]; [by left | by right].
Qed.

(** C7, as amended.  Alignment does not coerce a non-categorical value: it
    is carried into the aligned frame as it was supplied, a null apart,
    which becomes 0; a string stays that string and an integer stays that
    integer, and alignment does not fail. *)
Theorem numeric_value_passed_through schema features s f v :
  NoDup (feature_names schema) →
  (∀ c, c ∈ feature_names schema → c ∈ keys features) →
  f ∈ feature_names schema →
  is_categorical schema f = false →
  assoc f features = Some v →
  ∃ df s', preprocess schema features s = (Ok df, s')
           ∧ assoc f (data df) = Some [fill0 v]
           ∧ (∀ t, v = VStr t → fill0 v = VStr t)
           ∧ (∀ n, v = VInt n → fill0 v = VInt n).
Proof.
  intros _ Hall Hf Hnum Hv.
  eexists _, _. split; [by apply preprocess_features_aligned|].
  split_and!; [|by intros t ->|by intros n ->].
  unfold frame. cbn [data]. rewrite assoc_tabulate, decide_True by done.
  unfold cell. by rewrite Hnum, Hv.
Qed.

Lemma eq_half_not_gt pred : SFeqb pred half = true → gt pred half = false.
Proof.
  unfold gt, SFeqb, SFltb.
  destruct pred as [[]|[]| |[] m e]; try done.
  change half with (S754_finite false 4503599627370496 (-53)).
  cbn [SFcompare].
  destruct (Z.compare e (-53)) eqn:He; try done.
  apply Z.compare_eq in He as ->.
  destruct (PosDef.Pos.compare_cont Eq m 4503599627370496) eqn:Hm; try done.
  apply Pos.compare_eq in Hm as ->. done.
Qed.

Lemma predict_classification schema features s X s1 pred preds :
  task_type schema = "classification" →
  preprocess schema features s = (Ok X, s1) →
  dispatch_with schema X = Ok (pred :: preds) →
  predict_with schema features s
  = (Ok (PInt (label_of pred), Some (confidence_of pred)),
     {| prediction_count := (prediction_count s1 + 1)%nat; logged := logged s1 |}).
Proof.
  intros Htask Hpre Hraw. unfold predict. cbn [negb].
  unfold mbind at 1. unfold M_bind. rewrite Hpre.
  unfold mbind at 1. unfold M_bind, lift. rewrite Hraw. cbn.
  by rewrite Htask.
Qed.

(** C5.  In a classification prediction the label is 1 exactly when the
    raw score is strictly greater than 0.5; a raw score equal to 0.5 gives
    label 0. *)
Theorem classification_tie_break schema features s X s1 pred preds :
  task_type schema = "classification" →
  preprocess schema features s = (Ok X, s1) →
  dispatch_with schema X = Ok (pred :: preds) →
  ∃ label confidence s2,
    predict_with schema features s = (Ok (PInt label, confidence), s2)
    ∧ (label = 1 ↔ gt pred half = true)
    ∧ (label = 0 ∨ label = 1)
    ∧ (SFeqb pred half = true → label = 0).
Proof.
  intros Htask Hpre Hraw.
  eexists _, _, _. split; [by eapply predict_classification|].
  unfold label_of. split_and!.
  - by destruct (gt pred half).
  - destruct (gt pred half); auto.
  - intros H%eq_half_not_gt. by rewrite H.
Qed.

(** C6.  Position 0 of the batch result of the singleton batch [[r]] is
    the result of the single-record path on [r]: the same prediction and
    confidence, or the same exception; and the same server state when the
    prediction succeeds. *)
Theorem batch_single_equivalence SCHEMA MODEL_LOADED features s :
  let single :=
    predict SCHEMA MODEL_LOADED float_repr DMatrix xgb_DMatrix MODEL_predict
      features s in
  let batch :=
    (r ← predict_batch SCHEMA MODEL_LOADED float_repr DMatrix xgb_DMatrix
           MODEL_predict [features];
     lift (at0 r)) s in
  batch.1 = single.1
  ∧ match single.1 with Ok _ => batch.2 = single.2 | Raise _ => True end.
Proof.
    cbn zeta. unfold predict, predict_batch.
    destruct MODEL_LOADED; cbn [negb]; [|done].
    unfold for_each, mbind, M_bind, mret, M_ret, lift.
    destruct (preprocess_features SCHEMA float_repr features s) as [[X|e] s1];
      [|done].
    destruct SCHEMA as [schema|]; [|done].
    cbn [concat foldl].
    destruct (dispatch_with schema X) as [[|pred preds]|e]; cbn;
      by destruct (String.eqb (task_type schema) "classification").
  Qed.
End serve_claims.

(** ** Loops that raise *)

Section loops.
Context {S A B : Type}.

Lemma for_each_fails (f : A → M S B) xs :
  Exists (λ x, fails (f x)) xs → fails (for_each f xs).
Proof.
  induction 1 as [x xs Hx|x xs _ IH]; intros s; cbn [for_each];
    unfold mbind, M_bind.
  - destruct (Hx s) as (e & s' & ->). eauto.
  - destruct (f x s) as [[y|e] s']; [|eauto].
    destruct (IH s') as (e & s'' & ->). eauto.
Qed.

Lemma for_loop_fails (body : B → A → M S B) xs :
  Exists (λ x, ∀ acc, fails (body acc x)) xs → ∀ acc, fails (for_loop body xs acc).
Proof.
  induction 1 as [x xs Hx|x xs _ IH]; intros acc s; cbn [for_loop];
    unfold mbind, M_bind.
  - destruct (Hx acc s) as (e & s' & ->). eauto.
  - destruct (body acc x s) as [[acc'|e] s']; [|eauto].
    destruct (IH acc' s') as (e & s'' & ->). eauto.
Qed.

Lemma bind_fails {C} (m : M S A) (k : A → M S C) : fails m → fails (m ≫= k).
Proof.
  intros Hm s. unfold mbind, M_bind. destruct (Hm s) as (e & s' & ->). eauto.
Qed.
End loops.

(** ** The second implementation *)

Section backup.
Import BotBackup.
Variable model : option Model.
Variable preprocessors : Preprocessors.
Variable metadata : Metadata.
Variable float_repr : float → string.

Lemma code_of_head c cats : code_of (c :: cats) c = 0.
Proof. cbn. by rewrite decide_True. Qed.

Lemma transform_seen encoder v :
  v ∈ classes_ encoder →
  transform encoder [v] = Ok [code_of (classes_ encoder) v].
Proof.
  intros Hv. unfold transform. cbn [forallb].
  by rewrite bool_decide_eq_true_2.
Qed.

Lemma transform_unseen encoder v :
  v ∉ classes_ encoder →
  transform encoder [v] = Raise (ValueError "y contains previously unseen labels").
Proof.
  intros Hv. unfold transform. cbn [forallb].
  by rewrite bool_decide_eq_false_2.
Qed.


(** A category never seen in training gets the code of the first class,
    which is 0, and a warning is logged; nothing is raised. *)
Lemma encode_column_unseen df col encoder v first rest s :
  label_encoder preprocessors !! col = Some encoder →
  assoc col (data df) = Some [v] →
  classes_ encoder = first :: rest →
  str float_repr v ∉ classes_ encoder →
  encode_column preprocessors float_repr df col s
  = (Ok (setitem df col (replicate (nrows df) (VInt 0))),
     {| prediction_count := prediction_count s;
        logged := (logged s ++ [UnseenCategory col])%list |}).
Proof.
  intros Henc Hcol Hcls Hunseen. unfold encode_column. rewrite Henc, Hcol.
  unfold try_except, mbind, M_bind, lift, log. cbn [astype_str fmap list_fmap].
  rewrite transform_unseen by done. cbn [is_ValueError].
  rewrite Hcls. cbn [getitem0].
  rewrite transform_seen by (rewrite Hcls; left).
  cbn [getitem0]. by rewrite Hcls, code_of_head.
Qed.

(** No record is aligned: line 132 raises before the record, the encoders
    or the scaler are looked at, and the handler wraps the [NameError]. *)
Lemma backup_preprocess_features_raises features s :
  preprocess_features preprocessors metadata float_repr features s
  = (Raise (FeaturePreprocessingError (NameError "cast")),
     {| prediction_count := prediction_count s;
        logged := (logged s ++ [PreprocessingFailed (NameError "cast")])%list |}).
Proof. reflexivity. Qed.

(** So [predict_single] of a loaded server raises for every record, before
    the model is called and without counting. *)
Lemma backup_predict_single_raises m features s :
  predict_single (Some m) preprocessors metadata float_repr features s
  = (Raise (PredictionError (FeaturePreprocessingError (NameError "cast"))),
     {| prediction_count := prediction_count s;
        logged :=
          (logged s
           ++ [PreprocessingFailed (NameError "cast");
               PredictionFailed (FeaturePreprocessingError (NameError "cast"))])%list |}).
Proof.
  unfold predict_single, try_except, mbind at 1. unfold M_bind.
  rewrite backup_preprocess_features_raises.
  unfold mbind, M_bind, log, raise. cbn [prediction_count logged].
  by rewrite <- app_assoc.
Qed.

(** The block of [predict_single] that formats a LightGBM score (lines 183
    to 199), on its own: the probability is the score itself whenever it is
    at most 1.0. *)
Lemma normalize_lightgbm_probability raw :
  task_type metadata = "classification" →
  le raw one = true →
  normalize_lightgbm metadata raw
  = Ok {| prediction := PInt (int_of_bool (gt raw half));
          probability := Some (Prob raw) |}.
Proof. intros Htask Hle. unfold normalize_lightgbm. by rewrite Htask, Hle. Qed.

Lemma predict_batch_fails instances :
  Exists (λ r, fails (predict_single model preprocessors metadata float_repr r)) instances →
  fails (predict_batch model preprocessors metadata float_repr instances).
Proof.
  intros Hex s. unfold predict_batch.
  destruct model as [m|] eqn:Hm; [|unfold raise; eauto].
  unfold try_except, mbind at 1. unfold M_bind.
  edestruct (for_loop_fails (batch_step (Some m) preprocessors metadata float_repr) instances)
    as (e & s' & ->).
  - eapply Exists_impl; [exact Hex|]. intros r Hr acc. unfold batch_step.
    by apply bind_fails.
  - unfold mbind, M_bind, log, raise. eauto.
Qed.
End backup.

(** ** Both implementations *)

Section both.
Variable float_repr : float → string.
(** [src/model/serve.py] *)
Variable SCHEMA : option Serve.Schema.
Variable MODEL_LOADED : bool.
Variable DMatrix : Type.
Variable xgb_DMatrix : DataFrame → result DMatrix.
Variable MODEL_predict : DataFrame + DMatrix → result (list float).
(** [src/model-bot-backup/serve.py] *)
Variable model : option BotBackup.Model.
Variable preprocessors : BotBackup.Preprocessors.
Variable metadata : BotBackup.Metadata.

Lemma serve_predict_batch_fails features_list :
  Exists (λ r, fails (Serve.preprocess_features SCHEMA float_repr r)) features_list →
  fails (Serve.predict_batch SCHEMA MODEL_LOADED float_repr DMatrix xgb_DMatrix
           MODEL_predict features_list).
Proof.
  intros Hex s. unfold Serve.predict_batch.
  destruct MODEL_LOADED; cbn [negb]; [|unfold raise; eauto].
  by apply bind_fails, for_each_fails.
Qed.

(** C3, as amended.  A record that fails aborts the whole batch: when some
    record of the batch fails alignment ([src/model/serve.py]) or fails in
    [predict_single] ([src/model-bot-backup/serve.py]), [predict_batch]
    raises, whatever the other records are, and returns no prediction. *)
Theorem batch_aborted_by_one_failure features_list instances :
  Exists (λ r, fails (Serve.preprocess_features SCHEMA float_repr r)) features_list →
  Exists (λ r, fails (BotBackup.predict_single model preprocessors metadata float_repr r))
    instances →
  fails (Serve.predict_batch SCHEMA MODEL_LOADED float_repr DMatrix xgb_DMatrix
           MODEL_predict features_list)
  ∧ fails (BotBackup.predict_batch model preprocessors metadata float_repr instances).
Proof.
  intros H1 H2. split.
  - by apply serve_predict_batch_fails.
  - by apply predict_batch_fails.
Qed.

(** C2, as amended.  In a binary classification prediction of
    [src/model/serve.py] the confidence field is [abs(raw - 0.5) * 2], the
    distance of the raw score from the decision boundary, next to the label
    [int(raw > 0.5)]. *)
Theorem confidence_is_boundary_distance schema features s X s1 raw preds :
  SCHEMA = Some schema →
  MODEL_LOADED = true →
  Serve.task_type schema = "classification" →
  Serve.preprocess_features SCHEMA float_repr features s = (Ok X, s1) →
  Serve.dispatch DMatrix xgb_DMatrix MODEL_predict schema X = Ok (raw :: preds) →
  (Serve.predict SCHEMA MODEL_LOADED float_repr DMatrix xgb_DMatrix MODEL_predict
     features s).1
  = Ok (PInt (int_of_bool (gt raw half)), Some (mul (abs (sub raw half)) two)).
Proof.
  intros HS HL Htask Hpre Hraw. subst SCHEMA MODEL_LOADED.
  by erewrite predict_classification.
Qed.
End both.

(** ** The implementations at concrete inputs *)

Section concrete.
Import Examples.

(** C1, at the failing input.  Training encodes the category [y] of a
    column with the categories [x] and [y] as 1; [src/model/serve.py] encodes
    the same value of a request as 0. *)
Lemma serve_code_differs_from_training_code :
  Train.encode_column training_b = [0; 1; 0]
  ∧ Train.training_code training_b "y" = 1
  ∧ Serve.preprocess_features (Some schema_ab) float_repr record_1y server0
    = (Ok {| nrows := 1; data := [("a", [VFloat one]); ("b", [VInt 0])] |},
       server0).
Proof. split_and!; by vm_compute. Qed.

(** The encoding block of the second implementation (lines 140 to 150) on
    the same value: the fitted encoder is replayed. *)
Example backup_replays_encoder :
  BotBackup.encode_column preprocessors_ab float_repr
    {| nrows := 1; data := [("a", [VFloat one]); ("b", [VStr "y"])] |} "b"
    backup0
  = (Ok {| nrows := 1; data := [("a", [VFloat one]); ("b", [VInt 1])] |},
     backup0).
Proof. by vm_compute. Qed.

(** And on a category never seen in training: the code of the first class
    and a warning. *)
Example backup_falls_back :
  BotBackup.encode_column preprocessors_ab float_repr
    {| nrows := 1; data := [("a", [VFloat one]); ("b", [VStr "z"])] |} "b"
    backup0
  = (Ok {| nrows := 1; data := [("a", [VFloat one]); ("b", [VInt 0])] |},
     {| BotBackup.prediction_count := 0;
        BotBackup.logged := [BotBackup.UnseenCategory "b"] |}).
Proof. by vm_compute. Qed.

(** C2, counterexample.  For the raw score 0.73 [src/model/serve.py]
    returns label 1 with a confidence that is not the raw score. *)
Lemma confidence_differs_from_raw :
  Serve.predict (Some schema_ab) true float_repr unit no_DMatrix
    (constant_model (decimal 73 100)) record_1z server0
  = (Ok (PInt 1, Some (S754_finite false 8286623314361712 (-54))),
     {| Serve.prediction_count := 1; Serve.logged := [] |})
  ∧ S754_finite false 8286623314361712 (-54) ≠ decimal 73 100.
Proof. split; by vm_compute. Qed.

(** The formatting block of the second implementation (lines 183 to 199)
    keeps the raw score as the probability; no request reaches it, see
    [backup_predict_single_raises]. *)
Example backup_probability_is_raw :
  BotBackup.normalize_lightgbm metadata_ab (decimal 73 100)
  = Ok {| BotBackup.prediction := PInt 1;
          BotBackup.probability := Some (BotBackup.Prob (decimal 73 100)) |}.
Proof. by vm_compute. Qed.

(** C3, counterexample.  A batch of a valid record and a record that lacks
    feature [a] in [src/model/serve.py]: the valid record alone is
    predicted, the batch raises the error of the other record and returns
    nothing, and no prediction is counted. *)
Lemma batch_not_partial :
  (Serve.predict (Some schema_ab) true float_repr unit no_DMatrix
     (constant_model (decimal 73 100)) record_1z server0).1
  = Ok (PInt 1, Some (S754_finite false 8286623314361712 (-54)))
  ∧ Serve.predict_batch (Some schema_ab) true float_repr unit no_DMatrix
      (constant_model (decimal 73 100)) [record_1z; record_b_only] server0
    = (Raise (MissingRequiredFeatures {["a"]}), server0).
Proof. split; by vm_compute. Qed.

(** The second implementation on the same batch: it raises at its first
    record, with the wrapped [NameError] of line 132. *)
Example backup_same_batch_raises :
  (BotBackup.predict_batch (Some (constant_booster (decimal 73 100)))
     preprocessors_ab metadata_ab float_repr [record_1z; record_b_only]
     backup0).1
  = Raise (BatchPredictionError (PredictionError
             (FeaturePreprocessingError (NameError "cast")))).
Proof. by vm_compute. Qed.

(** C4, at the failing input.  A record without feature [a]:
    [src/model/serve.py] names the missing feature;
    [src/model-bot-backup/serve.py] rejects the record with the [NameError]
    of line 132, which names no feature, as it rejects the complete record
    [record_1y]. *)
Lemma backup_rejection_names_no_feature :
  Serve.preprocess_features (Some schema_ab) float_repr record_b_only server0
  = (Raise (MissingRequiredFeatures {["a"]}), server0)
  ∧ BotBackup.preprocess_features preprocessors_ab metadata_ab float_repr
      record_b_only backup0
    = (Raise (FeaturePreprocessingError (NameError "cast")),
       {| BotBackup.prediction_count := 0;
          BotBackup.logged := [BotBackup.PreprocessingFailed (NameError "cast")] |})
  ∧ BotBackup.preprocess_features preprocessors_ab metadata_ab float_repr
      record_1y backup0
    = (Raise (FeaturePreprocessingError (NameError "cast")),
       {| BotBackup.prediction_count := 0;
          BotBackup.logged := [BotBackup.PreprocessingFailed (NameError "cast")] |}).
Proof. split_and!; by vm_compute. Qed.

(** C7, counterexample.  The string [abc] in the numeric column [a] passes
    alignment unchanged; nothing is raised. *)
Lemma non_numeric_string_passes_alignment :
  Serve.preprocess_features (Some schema_a) float_repr record_abc server0
  = (Ok {| nrows := 1; data := [("a", [VStr "abc"])] |}, server0).
Proof. by vm_compute. Qed.

Lemma missing_feature_rejection_witness :
  (list_to_set (keys record_b_only) : gset string)
    ⊂ list_to_set (Serve.feature_names schema_ab)
  ∧ Serve.preprocess_features (Some schema_ab) float_repr record_b_only server0
    = (Raise (MissingRequiredFeatures {["a"]}), server0).
Proof.
  assert ((list_to_set (keys record_b_only) : gset string)
            ⊂ list_to_set (Serve.feature_names schema_ab)) as H.
  { split.
    - apply (bool_decide_unpack _). vm_compute. exact I.
    - intros Hsub. apply (bool_decide_pack _) in Hsub. vm_compute in Hsub.
      exact Hsub. }
  split; [exact H|].
  exact (proj1 (missing_feature_rejection float_repr unit no_DMatrix
                  (constant_model half) schema_ab record_b_only server0 H)).
Defined.


Lemma categorical_code_always_zero_witness :
  assoc "b" (data (frame schema_ab record_1y)) = Some [VInt 0].
Proof.
  apply (categorical_code_always_zero float_repr schema_ab ["b"] record_1y
           server0 (frame schema_ab record_1y) server0).
  - apply (bool_decide_unpack _). vm_compute. exact I.
  - reflexivity.
  - vm_compute. reflexivity.
  - apply (bool_decide_unpack _). vm_compute. exact I.
  - apply (bool_decide_unpack _). vm_compute. exact I.
Defined.

Lemma null_feature_filled_with_zero_witness :
  ∃ df s',
    Serve.preprocess_features (Some schema_ab) float_repr record_null server0
    = (Ok df, s')
    ∧ ∃ z, assoc "a" (data df) = Some [z] ∧ is_zero z.
Proof.
  apply (null_feature_filled_with_zero float_repr schema_ab record_null server0
           "a" VNone).
  - apply (bool_decide_unpack _). vm_compute. exact I.
  - intros c Hc. change (c ∈ ["a"; "b"]) in Hc.
    rewrite !elem_of_cons, elem_of_nil in Hc.
    destruct Hc as [->|[->|[]]]; apply (bool_decide_unpack _); vm_compute;
      exact I.
  - apply (bool_decide_unpack _). vm_compute. exact I.
  - reflexivity.
  - left. reflexivity.
Defined.

Lemma numeric_value_passed_through_witness :
  ∃ df s',
    Serve.preprocess_features (Some schema_a) float_repr record_abc server0
    = (Ok df, s')
    ∧ assoc "a" (data df) = Some [VStr "abc"].
Proof.
  destruct (numeric_value_passed_through float_repr schema_a record_abc server0
              "a" (VStr "abc")) as (df & s' & Hrun & Hcell & _).
  - apply (bool_decide_unpack _). vm_compute. exact I.
  - intros c Hc. change (c ∈ ["a"]) in Hc.
    rewrite elem_of_cons, elem_of_nil in Hc.
    destruct Hc as [->|[]]. apply (bool_decide_unpack _). vm_compute. exact I.
  - apply (bool_decide_unpack _). vm_compute. exact I.
  - reflexivity.
  - reflexivity.
  - exists df, s'. split; [exact Hrun | exact Hcell].
Defined.

Lemma classification_tie_break_witness :
  ∃ label confidence s2,
    Serve.predict (Some schema_ab) true float_repr unit no_DMatrix
      (constant_model half) record_1z server0
    = (Ok (PInt label, confidence), s2)
    ∧ label = 0.
Proof.
  destruct (classification_tie_break float_repr unit no_DMatrix
              (constant_model half) schema_ab record_1z server0
              (frame schema_ab record_1z) server0 half [])
    as (label & confidence & s2 & Hrun & _ & _ & Htie).
  - reflexivity.
  - vm_compute. reflexivity.
  - vm_compute. reflexivity.
  - exists label, confidence, s2. split; [exact Hrun|].
    apply Htie. vm_compute. reflexivity.
Defined.

Lemma batch_aborted_by_one_failure_witness :
  fails (Serve.predict_batch (Some schema_ab) true float_repr unit no_DMatrix
           (constant_model half) [record_1z; record_b_only])
  ∧ fails (BotBackup.predict_batch (Some (constant_booster half))
             preprocessors_ab metadata_ab float_repr [record_1z; record_b_only]).
Proof.
  apply batch_aborted_by_one_failure.
  - apply Exists_cons_tl, Exists_cons_hd. intros s.
    eexists _, _. vm_compute. reflexivity.
  - apply Exists_cons_tl, Exists_cons_hd. intros s.
    eexists _, _. vm_compute. reflexivity.
Defined.

Lemma confidence_is_boundary_distance_witness :
  (Serve.predict (Some schema_ab) true float_repr unit no_DMatrix
     (constant_model (decimal 73 100)) record_1z server0).1
  = Ok (PInt 1, Some (mul (abs (sub (decimal 73 100) half)) two)).
Proof.
  refine (confidence_is_boundary_distance float_repr (Some schema_ab) true unit
           no_DMatrix (constant_model (decimal 73 100)) schema_ab record_1z
           server0 (frame schema_ab record_1z) server0 (decimal 73 100) []
           _ _ _ _ _);
    try reflexivity; vm_compute; reflexivity.
Defined.

End concrete.

(** * More of the code *)

(** ** Requests, alignment and batches in [src/model/serve.py] *)

Section serve_alignment.
Import Serve.
Variable float_repr : float → string.

Abbreviation run_preprocess schema := (preprocess_features (Some schema) float_repr).

Lemma assoc_restrict schema features c :
  c ∈ feature_names schema →
  assoc c (Batch.restrict schema features) = assoc c features.
Proof.
  intros Hc. unfold Batch.restrict, dict in *.
  induction features as [|[k v] l IH]; [done|].
  rewrite filter_cons. cbn [fst assoc].
  destruct (decide (k ∈ feature_names schema)) as [HP|HP]; cbn [assoc].
  - by rewrite IH.
  - rewrite decide_False by (by intros ->). done.
Qed.

Lemma keys_restrict schema features c :
  c ∈ keys (Batch.restrict schema features)
  ↔ c ∈ keys features ∧ c ∈ feature_names schema.
Proof.
  unfold keys, Batch.restrict, dict. rewrite !list_elem_of_fmap. split.
  - intros ([k v] & -> & [Hin HP]%list_elem_of_filter). split; [|done].
    by exists (k, v).
  - intros [([k v] & -> & Hin) HP]. exists (k, v). split; [done|].
    by apply list_elem_of_filter.
Qed.

(** Keys of a record that are not schema features are dropped: the record
    is aligned like the record without them, and the only trace is one
    warning that carries exactly those keys. *)
Theorem extra_features_dropped_and_logged schema features s :
  (∀ c, c ∈ feature_names schema → c ∈ keys features) →
  let extra_features : gset string :=
    list_to_set (keys features) ∖ list_to_set (feature_names schema) in
  ∃ df s',
    run_preprocess schema features s = (Ok df, s')
    ∧ run_preprocess schema (Batch.restrict schema features) s = (Ok df, s)
    ∧ prediction_count s' = prediction_count s
    ∧ logged s'
      = (logged s ++ if decide (extra_features ≠ ∅)
                     then [IgnoringExtraFeatures extra_features] else [])%list.
Proof.
  intros Hall extra. eexists _, _. split_and!.
  - by apply preprocess_features_aligned.
  - rewrite preprocess_features_aligned.
    + f_equal.
      * f_equal. unfold frame. f_equal. apply list_fmap_ext.
        intros _ c Hc%list_elem_of_lookup_2.
        unfold cell. by rewrite assoc_restrict.
      * unfold after. rewrite decide_False; [done|]. intros Hne. apply Hne.
        apply subseteq_empty_difference_L. intros c.
        rewrite !elem_of_list_to_set, keys_restrict. tauto.
    + intros c Hc. apply keys_restrict. auto.
  - unfold after. by case_decide.
  - unfold after. fold extra. case_decide; [done|]. by rewrite app_nil_r.
Qed.

(** An aligned frame has one row and one one-cell column per schema feature,
    and no cell of it is [None] or NaN. *)
Theorem aligned_frame_has_no_null schema features s df s' :
  run_preprocess schema features s = (Ok df, s') →
  nrows df = 1%nat
  ∧ length (data df) = length (feature_names schema)
  ∧ Forall (λ col, ∃ v, col.2 = [v] ∧ ¬ is_null v) (data df).
Proof.
  intros Hrun.
  destruct (preprocess_features_cases float_repr schema features s)
    as [[_ H]|[_ H]]; rewrite H in Hrun; [|done].
  injection Hrun as <- _. unfold frame. cbn [nrows data]. split_and!.
  - done.
  - by rewrite length_fmap.
  - apply Forall_fmap, Forall_forall. intros c _. cbn.
    eexists. split; [done|]. unfold cell, is_null.
    destruct (is_categorical schema c); [by intros [?|?]|].
    destruct (default VNone (assoc c features)) as [n|x|t|]; cbn;
      [by intros [?|?] | | by intros [?|?] | by intros [?|?]].
    destruct x as [[]|[]| |]; cbn; by intros [?|?].
Qed.

Lemma preprocess_features_count SCHEMA features s :
  prediction_count (preprocess_features SCHEMA float_repr features s).2
  = prediction_count s.
Proof.
  destruct SCHEMA as [schema|]; [|done].
  destruct (preprocess_features_cases float_repr schema features s)
    as [[_ ->]|[_ ->]]; [|done].
  cbn. unfold after. by case_decide.
Qed.

Lemma for_each_preprocess_count SCHEMA features_list s :
  prediction_count
    (for_each (preprocess_features SCHEMA float_repr) features_list s).2
  = prediction_count s.
Proof.
  revert s. induction features_list as [|r l IH]; intros s; [done|].
  cbn [for_each]. unfold mbind, M_bind.
  pose proof (preprocess_features_count SCHEMA r s) as Hr.
  destruct (preprocess_features SCHEMA float_repr r s) as [[df|e] s1]; [|done].
  specialize (IH s1).
  destruct (for_each _ l s1) as [[dfs|e] s2]; cbn in *; congruence.
Qed.

End serve_alignment.

Section serve_more.
Import Serve.
Variable float_repr : float → string.
Variable DMatrix : Type.
Variable xgb_DMatrix : DataFrame → result DMatrix.
Variable MODEL_predict : DataFrame + DMatrix → result (list float).

Abbreviation run_align schema := (preprocess_features (Some schema) float_repr).
Abbreviation run_predict S L :=
  (predict S L float_repr DMatrix xgb_DMatrix MODEL_predict).
Abbreviation run_predict_batch S L :=
  (predict_batch S L float_repr DMatrix xgb_DMatrix MODEL_predict).
Abbreviation run_dispatch := (dispatch DMatrix xgb_DMatrix MODEL_predict).

(** [prediction_count] counts the predictions that succeeded: [predict]
    adds 1 and [predict_batch] adds the size of the batch when they return,
    and nothing when they raise. *)
Theorem prediction_count_counts_successes SCHEMA MODEL_LOADED features features_list s :
  prediction_count
    (predict SCHEMA MODEL_LOADED float_repr DMatrix xgb_DMatrix MODEL_predict
       features s).2
  = (prediction_count s
     + match (run_predict SCHEMA MODEL_LOADED features s).1 with
       | Ok _ => 1
       | Raise _ => 0
       end)%nat
  ∧ prediction_count
      (predict_batch SCHEMA MODEL_LOADED float_repr DMatrix xgb_DMatrix
         MODEL_predict features_list s).2
    = (prediction_count s
       + match (run_predict_batch SCHEMA MODEL_LOADED features_list s).1 with
         | Ok _ => length features_list
         | Raise _ => 0
         end)%nat.
Proof.
  split.
  - unfold predict. destruct MODEL_LOADED; cbn [negb]; [|cbn; lia].
    unfold mbind, M_bind, lift, raise.
    pose proof (preprocess_features_count float_repr SCHEMA features s) as Hc.
    destruct (preprocess_features SCHEMA float_repr features s) as [[X|e] s1];
      cbn in Hc; [|cbn; lia].
    destruct SCHEMA as [schema|]; [|cbn; lia].
    destruct (run_dispatch schema X) as [[|pred preds]|e]; cbn; try lia.
    destruct (String.eqb (task_type schema) "classification"); cbn; lia.
  - unfold predict_batch. destruct MODEL_LOADED; cbn [negb]; [|cbn; lia].
    unfold mbind, M_bind, lift, raise.
    pose proof (for_each_preprocess_count float_repr SCHEMA features_list s) as Hc.
    destruct (for_each _ features_list s) as [[dfs|e] s1];
      cbn in Hc; [|cbn; lia].
    destruct (concat dfs) as [X|e]; [|cbn; lia].
    destruct SCHEMA as [schema|]; [|cbn; lia].
    destruct (run_dispatch schema X) as [scores|e]; cbn; try lia.
    destruct (String.eqb (task_type schema) "classification"); cbn; lia.
Qed.











(** The empty batch: [predict_batch] raises on it, whatever the schema, at
    [pd.concat] and without touching the state; the request validator
    rejects it first, and accepts exactly the batches of 1 to 1000
    records. *)
Theorem empty_batch_is_rejected SCHEMA s v :
  run_predict_batch SCHEMA true [] s
  = (Raise (ValueError "No objects to concatenate"), s)
  ∧ BatchPredictionRequest.validate_features [] 
    = Raise (ValueError "Features list cannot be empty")
  ∧ (BatchPredictionRequest.validate_features v = Ok v
     ↔ (1 ≤ length v ≤ 1000)%nat).
Proof.
  split_and!; [done..|].
  unfold BatchPredictionRequest.validate_features.
  destruct v as [|r l]; [cbn; split; [done|lia]|].
  case_decide; cbn [length] in *; split; (done || lia).
Qed.
End serve_more.

(** ** Categories and codes *)

Lemma str_lt_trans a b c : str_lt a b → str_lt b c → str_lt a c.
Proof.
  unfold str_lt. intros H1 H2.
  apply OrderedTypeEx.String_as_OT.cmp_lt.
  eapply OrderedTypeEx.String_as_OT.lt_trans;
    by apply OrderedTypeEx.String_as_OT.cmp_lt.
Qed.

Lemma str_lt_irrefl a : ¬ str_lt a a.
Proof.
  unfold str_lt. intros H.
  pose proof (String.compare_antisym a a) as Ha. rewrite H in Ha. done.
Qed.

Lemma str_gt_lt a b : String.compare a b = Gt → str_lt b a.
Proof.
  unfold str_lt. intros H. rewrite String.compare_antisym, H. done.
Qed.

Lemma elem_of_insert_category v s cats :
  v ∈ insert_category s cats ↔ v = s ∨ v ∈ cats.
Proof.
  induction cats as [|c cats IH]; cbn.
  - rewrite elem_of_cons. split; [tauto|]. intros [?|H]; [auto|].
    by apply elem_of_nil in H.
  - destruct (String.compare s c) eqn:E.
    + apply String.compare_eq_iff in E as ->.
      rewrite !elem_of_cons. tauto.
    + rewrite !elem_of_cons. tauto.
    + rewrite !elem_of_cons, IH. tauto.
Qed.

Lemma elem_of_categories v column : v ∈ categories column ↔ v ∈ column.
Proof.
  unfold categories. induction column as [|s column IH]; cbn; [done|].
  rewrite elem_of_insert_category, IH, elem_of_cons. tauto.
Qed.

Lemma insert_category_sorted s cats :
  StronglySorted str_lt cats → StronglySorted str_lt (insert_category s cats).
Proof.
  induction 1 as [|c cats Hs IH Hc]; cbn.
  - repeat constructor.
  - destruct (String.compare s c) eqn:E.
    + by constructor.
    + constructor; [by constructor|]. constructor; [done|].
      eapply Forall_impl; [exact Hc|]. intros w Hw. by eapply str_lt_trans.
    + constructor; [done|]. apply Forall_forall. intros w Hw.
      apply elem_of_insert_category in Hw as [->|Hw].
      * by apply str_gt_lt.
      * rewrite Forall_forall in Hc. auto.
Qed.

Lemma categories_sorted column : StronglySorted str_lt (categories column).
Proof.
  unfold categories. induction column as [|s column IH]; cbn; [constructor|].
  by apply insert_category_sorted.
Qed.

Lemma code_of_lookup cats v :
  v ∈ cats →
  ∃ i : nat, code_of cats v = Z.of_nat i ∧ cats !! i = Some v.
Proof.
  induction cats as [|c cats IH]; intros Hin; [by apply elem_of_nil in Hin|].
  cbn. destruct (decide (c = v)) as [->|Hne].
  - by exists 0%nat.
  - apply elem_of_cons in Hin as [?|Hin]; [congruence|].
    destruct (IH Hin) as (i & Hi & Hl). exists (S i). rewrite Hi.
    rewrite decide_False by lia. split; [lia | done].
Qed.

Lemma code_of_zero cats v :
  StronglySorted str_lt cats → v ∈ cats →
  code_of cats v = 0 ↔ least v cats.
Proof.
  intros Hs Hv. destruct cats as [|c cats]; [by apply elem_of_nil in Hv|].
  apply StronglySorted_inv in Hs as [_ Hc]. rewrite Forall_forall in Hc.
  cbn. destruct (decide (c = v)) as [->|Hne].
  - split; [|done]. intros _ w [->|Hw]%elem_of_cons.
    + intros H. by apply str_gt_lt, str_lt_irrefl in H.
    + intros H. apply str_gt_lt in H. apply (str_lt_irrefl v).
      eapply str_lt_trans; [|exact H]. by apply Hc.
  - apply elem_of_cons in Hv as [?|Hv]; [congruence|].
    split.
    + destruct (code_of_lookup cats v Hv) as (i & -> & _).
      rewrite decide_False by lia. lia.
    + intros Hleast. exfalso. apply (Hleast c); [left|].
      specialize (Hc v Hv). unfold str_lt in Hc.
      by rewrite String.compare_antisym, Hc.
Qed.

Lemma code_of_zero_head cats v :
  v ∈ cats → code_of cats v = 0 ↔ head cats = Some v.
Proof.
  intros Hv. destruct cats as [|c cats]; [by apply elem_of_nil in Hv|].
  cbn. destruct (decide (c = v)) as [->|Hne]; [done|].
  apply elem_of_cons in Hv as [?|Hv]; [congruence|].
  destruct (code_of_lookup cats v Hv) as (i & -> & _).
  rewrite decide_False by lia. split; [lia | congruence].
Qed.

Section skew.
Import Serve.
Variable float_repr : float → string.

(** The code [src/model/serve.py] gives to a category of the training
    column is the code training gave it exactly when the category is the
    first one of the column: the least value of an object column, the first
    declared category of a category column. *)
Theorem serve_code_is_training_code_iff_first
    schema cols features s col (column : Train.Series) v :
  categorical_columns schema = Some cols →
  col ∈ cols →
  col ∈ feature_names schema →
  (∀ c, c ∈ feature_names schema → c ∈ keys features) →
  assoc col features = Some (VStr v) →
  v ∈ Train.categories column →
  ∃ df s' code,
    preprocess_features (Some schema) float_repr features s = (Ok df, s')
    ∧ assoc col (data df) = Some [VInt code]
    ∧ (code = Train.training_code column v
       ↔ head (Train.categories column) = Some v)
    ∧ (∀ values, column = Train.object values →
         head (Train.categories column) = Some v ↔ least v values).
Proof.
  intros Hcols Hcol Hname Hall _ Hv.
  eexists _, _, 0. split_and!.
  - by apply preprocess_features_aligned.
  - unfold frame. cbn [data]. rewrite assoc_tabulate, decide_True by done.
    unfold cell, is_categorical. rewrite Hcols. cbn [default].
    by rewrite bool_decide_eq_true_2.
  - unfold Train.training_code. rewrite <- code_of_zero_head by done.
    split; congruence.
  - intros values ->. cbn [Train.categories] in *.
    rewrite <- code_of_zero_head by done.
    assert (least v values ↔ least v (categories values)) as ->
      by (unfold least; by setoid_rewrite elem_of_categories).
    apply code_of_zero; [apply categories_sorted | done].
Qed.
End skew.

Section replay.
Import BotBackup.
Variable preprocessors : Preprocessors.
Variable float_repr : float → string.

End replay.

(** ** No request is served by the second implementation *)

Section backup_requests.
Import BotBackup BackupApp.
Variable model : option Model.
Variable preprocessors : Preprocessors.
Variable metadata : Metadata.
Variable float_repr : float → string.

Lemma backup_predict_batch_raises m r instances s :
  predict_batch (Some m) preprocessors metadata float_repr (r :: instances) s
  = (Raise (BatchPredictionError (PredictionError
              (FeaturePreprocessingError (NameError "cast")))),
     {| prediction_count := prediction_count s;
        logged :=
          (logged s
           ++ [PreprocessingFailed (NameError "cast");
               PredictionFailed (FeaturePreprocessingError (NameError "cast"));
               BatchPredictionFailed
                 (PredictionError (FeaturePreprocessingError (NameError "cast")))])%list |}).
Proof.
  unfold predict_batch, try_except. cbn [for_loop].
  unfold batch_step, mbind, M_bind.
  rewrite backup_predict_single_raises.
  unfold log, raise. cbn [prediction_count logged].
  by rewrite <- app_assoc.
Qed.

(** [POST /score] of the second implementation answers 500 to every
    request.  With a model loaded, [preprocess_features] raises the
    [NameError] of line 132 for every record, [predict_single] wraps it in
    its [RuntimeError] before the model is called and without counting, and
    the [except ValueError] clause of the endpoint does not catch that;
    without a model, [predict_single] raises [RuntimeError] at once. *)
Theorem backup_score_always_answers_500 features s :
  ∃ detail s',
    score_single model preprocessors metadata float_repr features s
    = (HTTPException 500 detail, s')
    ∧ prediction_count s' = prediction_count s
    ∧ (∀ m, model = Some m →
         detail = PredictionError (FeaturePreprocessingError (NameError "cast"))
         ∧ logged s'
           = (logged s
              ++ [PreprocessingFailed (NameError "cast");
                  PredictionFailed
                    (FeaturePreprocessingError (NameError "cast"))])%list)
    ∧ (model = None → detail = RuntimeError "Model not loaded" ∧ s' = s).
Proof.
  unfold score_single. destruct model as [m|].
  - rewrite backup_predict_single_raises. cbn.
    eexists _, _. split_and!; [done..| |done].
    intros m' _. done.
  - cbn. unfold raise. eexists _, _. split_and!; done.
Qed.

(** [predict_batch] of the second implementation returns for the empty
    batch only, with no prediction and without touching the state.  A batch
    with a record raises at its first record, the wrapped error of
    [predict_single]; the records after it are not looked at and nothing is
    counted. *)
Theorem backup_batch_raises_at_first_record m instances s :
  predict_batch (Some m) preprocessors metadata float_repr instances s
  = match instances with
    | [] =>
        (Ok {| predictions := []; probabilities := None; processed_count := 0 |},
         s)
    | _ :: _ =>
        (Raise (BatchPredictionError (PredictionError
                  (FeaturePreprocessingError (NameError "cast")))),
         {| prediction_count := prediction_count s;
            logged :=
              (logged s
               ++ [PreprocessingFailed (NameError "cast");
                   PredictionFailed (FeaturePreprocessingError (NameError "cast"));
                   BatchPredictionFailed
                     (PredictionError
                        (FeaturePreprocessingError (NameError "cast")))])%list |})
    end.
Proof.
  destruct instances as [|r instances]; [done|].
  apply backup_predict_batch_raises.
Qed.

(** [POST /batch] never answers 200: it answers 400 exactly for an empty
    batch or one of more than 1000 instances, and 500 for every other
    batch, with or without a model; no prediction is counted. *)
Theorem backup_batch_endpoint_status instances s :
  let response :=
    (score_batch model preprocessors metadata float_repr instances s).1 in
  (status_code response = 400%nat
   ↔ instances = [] ∨ (1000 < length instances)%nat)
  ∧ (status_code response = 500%nat
     ↔ instances ≠ [] ∧ (length instances ≤ 1000)%nat)
  ∧ prediction_count
      (score_batch model preprocessors metadata float_repr instances s).2
    = prediction_count s.
Proof.
  cbn zeta. unfold score_batch.
  destruct instances as [|r instances].
  { cbn. split_and!; [split; auto | split; [done | by intros [? _]] | done]. }
  assert (r :: instances ≠ []) as Hne by done.
  case_decide as Hlen.
  - cbn [respond is_ValueError fst snd status_code]. split_and!; [| |done].
    + split; auto.
    + split; [done|]. intros [_ ?]. lia.
  - assert (∃ e s', predict_batch model preprocessors metadata float_repr
                      (r :: instances) s = (Raise e, s')
                    ∧ is_ValueError e = false
                    ∧ prediction_count s' = prediction_count s)
      as (e & s' & -> & He & Hcount).
    { destruct model as [m|].
      - rewrite backup_predict_batch_raises. by eexists _, _.
      - cbn. unfold raise. by eexists _, _. }
    cbn [respond fst snd]. rewrite He. cbn [status_code].
    split_and!; [| |done].
    + split; [done|]. intros [?|?]; [done|lia].
    + split; [|done]. intros _. split; [done|lia].
Qed.
End backup_requests.

(** ** Loading and the endpoints of [src/model/serve.py] *)

Section app_theorems.
Import Serve App.
Variable float_repr : float → string.
Variable DMatrix : Type.
Variable xgb_DMatrix : DataFrame → result DMatrix.

Abbreviation Globals := (Globals DMatrix).
Abbreviation Disk := (Disk DMatrix).
Abbreviation run_score := (score float_repr DMatrix xgb_DMatrix).





(** A reload is not atomic: when the new schema is read (a JSON object
    with the three keys [predict] subscripts) and unpickling the new model
    raises, the endpoint answers 500 and the old model keeps serving,
    healthy, under the new schema; a request that lacks a feature of the new
    schema is answered 400. *)
Theorem failed_reload_keeps_old_model_with_new_schema
    (g : Globals) (disk : Disk) model j schema e features id s :
  MODEL _ g = Some model →
  MODEL_LOADED _ g = true →
  schema_json _ disk = Some (Ok j) →
  complete j = Some schema →
  model_pkl _ disk = Some (Raise e) →
  (∃ c, c ∈ feature_names schema ∧ c ∉ keys features) →
  let g' := (reload_model _ disk g).2 in
  (reload_model _ disk g).1 = HTTPException 500 (ReadError e)
  ∧ MODEL _ g' = Some model
  ∧ SCHEMA _ g' = Some j
  ∧ status (health_check _ g') = "healthy"
  ∧ run_score g' features id s
    = (HTTPException 400
         (MissingRequiredFeatures
            (list_to_set (feature_names schema) ∖ list_to_set (keys features))),
       s).
Proof.
  intros Hm Hl Hs Hc Hp Hmiss. cbn zeta.
  unfold reload_model, load_model. rewrite Hs, Hp. cbn. rewrite Hm, Hl.
  split_and!; try done.
  unfold score, App.predict. cbn [SCHEMA MODEL_LOADED].
  rewrite Hc.
  unfold Serve.predict. cbn [negb]. unfold mbind, M_bind.
  by rewrite preprocess_features_missing.
Qed.

End app_theorems.

(** ** The added properties at concrete inputs *)

Section concrete_more.
Import Examples Fixtures.

Lemma extra_features_dropped_and_logged_witness :
  ∃ df s',
    Serve.preprocess_features (Some schema_ab) float_repr record_extra server0
    = (Ok df, s')
    ∧ Serve.preprocess_features (Some schema_ab) float_repr
        (Batch.restrict schema_ab record_extra) server0
      = (Ok df, server0).
Proof.
  destruct (extra_features_dropped_and_logged float_repr schema_ab record_extra
              server0) as (df & s' & Hrun & Hrestricted & _).
  - intros c Hc. change (c ∈ ["a"; "b"]) in Hc.
    rewrite !elem_of_cons, elem_of_nil in Hc.
    destruct Hc as [->|[->|[]]]; apply (bool_decide_unpack _); vm_compute;
      exact I.
  - exists df, s'. split; [exact Hrun | exact Hrestricted].
Defined.

Lemma aligned_frame_has_no_null_witness :
  nrows (frame schema_ab record_null) = 1%nat
  ∧ length (data (frame schema_ab record_null)) = 2%nat.
Proof.
  destruct (aligned_frame_has_no_null float_repr schema_ab record_null server0
              (frame schema_ab record_null) server0) as (Hrows & Hcols & _).
  - vm_compute. reflexivity.
  - split; [exact Hrows | exact Hcols].
Defined.



Lemma serve_code_is_training_code_iff_first_witness :
  ∃ df s' code,
    Serve.preprocess_features (Some schema_ab) float_repr (record_size "S")
      server0
    = (Ok df, s')
    ∧ assoc "b" (data df) = Some [VInt code]
    ∧ (code = Train.training_code training_sizes "S"
       ↔ head (Train.categories training_sizes) = Some "S").
Proof.
  destruct (serve_code_is_training_code_iff_first float_repr schema_ab ["b"]
              (record_size "S") server0 "b" training_sizes "S")
    as (df & s' & code & Hrun & Hcell & Hiff & _).
  - reflexivity.
  - apply (bool_decide_unpack _). vm_compute. exact I.
  - apply (bool_decide_unpack _). vm_compute. exact I.
  - intros c Hc. change (c ∈ ["a"; "b"]) in Hc.
    rewrite !elem_of_cons, elem_of_nil in Hc.
    destruct Hc as [->|[->|[]]]; apply (bool_decide_unpack _); vm_compute;
      exact I.
  - reflexivity.
  - apply (bool_decide_unpack _). vm_compute. exact I.
  - exists df, s', code. split_and!; [exact Hrun | exact Hcell | exact Hiff].
Defined.


Lemma failed_reload_keeps_old_model_with_new_schema_witness :
  (App.reload_model unit disk_bad_pickle loaded).1
  = App.HTTPException 500 (App.ReadError (ExternalError 1))
  ∧ App.SCHEMA unit (App.reload_model unit disk_bad_pickle loaded).2
    = Some (json schema_ab).
Proof.
  destruct (failed_reload_keeps_old_model_with_new_schema float_repr unit
              no_DMatrix loaded disk_bad_pickle (constant_model half)
              (json schema_ab) schema_ab (ExternalError 1) record_abc None
              server0)
    as (Hanswer & _ & Hschema & _).
  - reflexivity.
  - reflexivity.
  - reflexivity.
  - reflexivity.
  - reflexivity.
  - exists "b". split; [|intros Hin; apply (bool_decide_pack _) in Hin;
                          vm_compute in Hin; exact Hin].
    apply (bool_decide_unpack _). vm_compute. exact I.
  - split; [exact Hanswer | exact Hschema].
Defined.


Lemma backup_score_always_answers_500_witness :
  BackupApp.status_code
    (BackupApp.score_single (Some (constant_booster half)) preprocessors_ab
       metadata_ab float_repr record_1y backup0).1
  = 500%nat.
Proof.
  destruct (backup_score_always_answers_500 (Some (constant_booster half))
              preprocessors_ab metadata_ab float_repr record_1y backup0)
    as (detail & s' & Hrun & _).
  rewrite Hrun. reflexivity.
Defined.

Lemma backup_batch_endpoint_status_witness :
  BackupApp.status_code
    (BackupApp.score_batch (Some (constant_booster half)) preprocessors_ab
       metadata_ab float_repr [record_1y; record_1z] backup0).1
  = 500%nat.
Proof.
  refine (proj2 (proj1 (proj2 (backup_batch_endpoint_status
                                 (Some (constant_booster half)) preprocessors_ab
                                 metadata_ab float_repr [record_1y; record_1z]
                                 backup0))) _).
  split; [discriminate | cbn; lia].
Defined.


End concrete_more.
